(** * cc-discord-rpc: the presence daemon and the statusline script

    A shallow embedding of [scripts/presence.py] and [scripts/statusline.py].
    Python values read from JSON are kept dynamically typed ([json]); every
    function of the scripts is a computation in a state-and-exception monad
    over a [world] that holds the files of the data directory, the clock, the
    history of calls issued to the outside and the local variables of the
    daemon loop.  Library calls whose result the scripts cannot control (the
    platform's liveness probe, the presence service, failing file-system
    calls) are answered by oracles stored in the [platform] record.

    Conventions.
    - A file is identified with what its reader makes of its text: the value
      [json.loads] returns, the exception [read_text] raises.
    - The clock is a rational number of seconds and differences of times are
      exact; the numbers the statusline prints are binary64 floats, rounded
      as Python rounds them.
    - A process runs on its own: the commands are run one after the other,
      and the daemon loop is unrolled for a given number of iterations.
    - A termination request reaches the daemon at one of the points at which
      the interpreter can run a signal handler. *)

From Stdlib Require Import ZArith QArith Qround Qabs String Ascii List Lia.
From stdpp Require Import gmap strings pretty list fin_maps.

Local Open Scope string_scope.
Local Open Scope Z_scope.

#[local] Set Warnings "-register-all".

(** ** Exceptions *)

(** The exception classes the scripts name or can meet.  [IOError] is an alias
    of [OSError] in Python 3.  [RuntimeError] stands for any other subclass of
    [Exception], such as the ones raised by the presence client library. *)
Inductive exn : Type :=
| SystemExit (code : Z)
| KeyboardInterrupt
| OSError
| FileNotFoundError
| PermissionError
| ProcessLookupError
| ValueError
| JSONDecodeError
| UnicodeDecodeError
| TypeError
| AttributeError
| OverflowError
| RuntimeError.

Global Instance exn_eq_dec : EqDecision exn.
Proof. solve_decision. Defined.

(** [isinstance(e, OSError)]: the three named subclasses derive from it. *)
Definition is_OSError (e : exn) : bool :=
  match e with
  | OSError | FileNotFoundError | PermissionError | ProcessLookupError => true
  | _ => false
  end.

(** [isinstance(e, ValueError)]: [json.JSONDecodeError] and
    [UnicodeDecodeError] both derive from [ValueError]. *)
Definition is_ValueError (e : exn) : bool :=
  match e with
  | ValueError | JSONDecodeError | UnicodeDecodeError => true
  | _ => false
  end.

Definition is_JSONDecodeError (e : exn) : bool :=
  match e with JSONDecodeError => true | _ => false end.

Definition is_ProcessLookupError (e : exn) : bool :=
  match e with ProcessLookupError => true | _ => false end.

Definition is_PermissionError (e : exn) : bool :=
  match e with PermissionError => true | _ => false end.

Definition is_KeyboardInterrupt (e : exn) : bool :=
  match e with KeyboardInterrupt => true | _ => false end.

(** [isinstance(e, Exception)]: everything but [SystemExit] and
    [KeyboardInterrupt], which derive from [BaseException] directly. *)
Definition is_Exception (e : exn) : bool :=
  match e with
  | SystemExit _ | KeyboardInterrupt => false
  | _ => true
  end.

(** A bare [except:] clause. *)
Definition is_BaseException (e : exn) : bool := true.

(** ** JSON values as Python sees them *)

(** Floats are kept by their exact rational value; NaN and the infinities are
    left out. *)
Inductive json : Type :=
| JNull
| JBool (b : bool)
| JInt (n : Z)
| JFloat (x : Q)
| JStr (s : string)
| JList (l : list json)
| JDict (d : gmap string json).

Global Instance Q_eq_dec : EqDecision Q.
Proof. solve_decision. Defined.

Global Instance json_eq_dec : EqDecision json.
Proof.
  refine (fix go (a b : json) {struct a} : Decision (a = b) :=
    let _ : EqDecision json := @go in
    match a, b with
    | JNull, JNull => left _
    | JBool x, JBool y => cast_if (decide (x = y))
    | JInt x, JInt y => cast_if (decide (x = y))
    | JFloat x, JFloat y => cast_if (decide (x = y))
    | JStr x, JStr y => cast_if (decide (x = y))
    | JList x, JList y => cast_if (decide (x = y))
    | JDict x, JDict y => cast_if (decide (x = y))
    | _, _ => right _
    end); abstract congruence.
Defined.

(** The empty dict [{}]. *)
Definition empty_dict : json := JDict ∅.

(** Truth value of an object ([if x:], [not x]). *)
Definition truthy (v : json) : bool :=
  match v with
  | JNull => false
  | JBool b => b
  | JInt n => negb (n =? 0)
  | JFloat x => negb (Qeq_bool x 0)
  | JStr s => negb (String.eqb s "")
  | JList l => match l with [] => false | _ => true end
  | JDict d => negb (bool_decide (d = ∅))
  end.

(** The number an object stands for in arithmetic, if it is one ([bool] is a
    subclass of [int]). *)
Definition number (v : json) : option Q :=
  match v with
  | JBool b => Some (inject_Z (Z.b2z b))
  | JInt n => Some (inject_Z n)
  | JFloat x => Some x
  | _ => None
  end.

(** Representative of a value up to Python's [==]: numbers compare by value
    across [bool], [int] and [float]; strings, lists and dicts compare
    structurally. *)
Fixpoint canon (v : json) : json :=
  match v with
  | JBool b => JInt (Z.b2z b)
  | JFloat x =>
      let r := Qred x in
      if decide (Qden r = 1%positive) then JInt (Qnum r) else JFloat r
  | JList l => JList (map canon l)
  | JDict d => JDict (canon <$> d)
  | _ => v
  end.

(** [a == b] *)
Definition py_eq (a b : json) : bool := bool_decide (canon a = canon b).

(** [int(x)] of a float: truncation towards zero. *)
Definition int_of_float (x : Q) : Z := Z.quot (Qnum x) (Zpos (Qden x)).

(** ** The world the scripts run in *)

(** Result of running a piece of Python: a value, or a raised exception. *)
Inductive outcome (A : Type) : Type :=
| Ret (a : A)
| Raise (e : exn).
Arguments Ret {A} a.
Arguments Raise {A} e.

(** A file of the data directory, by what reading it gives.  The text is
    identified with the value its reader ([json.loads] for the state file,
    [int] after [strip] for the PID file) makes of it. *)
Inductive file (A : Type) : Type :=
| Absent                 (* [exists()] is false *)
| Unreadable (e : exn)   (* the file is there, [read_text] raises [e] *)
| Garbled                (* text that the reader rejects *)
| Holds (a : A).         (* text that the reader turns into [a] *)
Arguments Absent {A}.
Arguments Unreadable {A} e.
Arguments Garbled {A}.
Arguments Holds {A} a.

(** Standard input of a command. *)
Inductive stdin_state : Type :=
| Tty                    (* [isatty()]; nothing to read *)
| StdinFails (e : exn)   (* [read()] raises [e] *)
| StdinBlank             (* empty or white space only *)
| StdinGarbled           (* text that [json.loads] rejects *)
| StdinJson (v : json).  (* text that [json.loads] turns into [v] *)

(** Lines of the log file, by the statement that writes them. *)
Inductive log_msg : Type :=
| DaemonStarting
| ReceivedShutdownSignal
| ConnectedToDiscord
| FailedToConnect (e : exn)
| IdleTimeoutReached
| SendingToDiscord (details : string) (project : json)
| FailedToUpdatePresence (e : exn)
| DaemonError (e : exn)
| DaemonStopped
| DaemonAlreadyRunning
| StartingDaemon (project_name : string)
| UpdatedActivity (tool_name : json)
| StopCommandReceived
| StoppedDaemon (pid : Z)
| FailedToStopDaemon (e : exn)
| CouldNotWriteState (e : exn).

(** Calls to the presence client ([pypresence.Presence]).  [RpcUpdate] keeps
    the arguments that vary: [state] is the text ["on "] followed by
    [project], [details] the label and [start] the session start. *)
Inductive rpc_call : Type :=
| RpcNew (client_id : string)
| RpcConnect
| RpcClear
| RpcUpdate (project : json) (details : string) (start : json)
| RpcClose.

(** What a process does to the outside, in the order it happens. *)
Inductive event : Type :=
| Logged (m : log_msg)          (* a line appended to the log file *)
| Rpc (c : rpc_call)            (* a call issued to the presence service *)
| SpawnedDaemon                 (* [Popen] or [fork] of the daemon *)
| Terminated (pid : Z)          (* [os.kill(pid, SIGTERM)] or [taskkill] *)
| Printed (line : string).      (* a line on standard output *)

(** The parts of the environment the scripts only consult.  A fault is the
    exception a library call raises, [None] when it succeeds; a write that
    fails leaves the file as it was. *)
Record platform : Type := Platform {
  win32 : bool;                         (* [sys.platform == "win32"] *)
  getpid : Z;                           (* [os.getpid()] *)
  project_dir : option string;          (* [CLAUDE_PROJECT_DIR] *)
  getcwd : string;                      (* [os.getcwd()] *)
  path_name : string -> string;         (* [Path(p).name] *)
  repr : json -> string;                (* text of an object, see [py_str] *)
  mkdir_fault : option exn;             (* [DATA_DIR.mkdir] *)
  state_write_fault : option exn;       (* [STATE_FILE.write_text] *)
  pid_write_fault : option exn;         (* [PID_FILE.write_text] *)
  pid_unlink_fault : option exn;        (* [PID_FILE.unlink] on a file that is there *)
  log_fault : option exn;               (* [open(LOG_FILE, "a")] *)
  kill0 : Z -> option exn;              (* [os.kill(pid, 0)] *)
  tasklist : Z -> outcome bool;         (* [str(pid) in] the output of tasklist *)
  terminate_fault : Z -> option exn;    (* [os.kill(pid, SIGTERM)], taskkill *)
  spawn_fault : option exn;             (* [Popen], [os.fork] *)
  rpc_fault : nat -> option exn         (* the n-th call to the presence client *)
}.

(** Local variables of [run_daemon]: [rpc] is kept by whether it is an
    object or [None]. *)
Record locals : Type := Locals {
  rpc : bool;
  connected : bool;
  last_sent : gmap string json
}.

(** Interpreter state of the daemon process: whether [shutdown] is installed
    for SIGTERM and SIGINT, whether [remove_pid] is registered with [atexit],
    and a termination request on its way: [Some k] when it arrives at the
    k-th point (from 0) at which the loop can be interrupted. *)
Record process : Type := Process {
  handlers : bool;
  atexit : bool;
  pending : option nat
}.

Record world : Type := World {
  sys : platform;
  clock : Q;                  (* [time.time()] *)
  stdin : stdin_state;
  state_file : file json;     (* STATE_FILE *)
  pid_file : file Z;          (* PID_FILE *)
  trace : list event;
  vars : locals;
  proc : process
}.

Definition set_clock (t : Q) (w : world) : world :=
  World (sys w) t (stdin w) (state_file w) (pid_file w) (trace w) (vars w) (proc w).
Definition set_stdin (i : stdin_state) (w : world) : world :=
  World (sys w) (clock w) i (state_file w) (pid_file w) (trace w) (vars w) (proc w).
Definition set_state_file (f : file json) (w : world) : world :=
  World (sys w) (clock w) (stdin w) f (pid_file w) (trace w) (vars w) (proc w).
Definition set_pid_file (f : file Z) (w : world) : world :=
  World (sys w) (clock w) (stdin w) (state_file w) f (trace w) (vars w) (proc w).
Definition set_trace (t : list event) (w : world) : world :=
  World (sys w) (clock w) (stdin w) (state_file w) (pid_file w) t (vars w) (proc w).
Definition set_vars (v : locals) (w : world) : world :=
  World (sys w) (clock w) (stdin w) (state_file w) (pid_file w) (trace w) v (proc w).
Definition set_proc (p : process) (w : world) : world :=
  World (sys w) (clock w) (stdin w) (state_file w) (pid_file w) (trace w) (vars w) p.

(** ** The monad of the scripts *)

Definition M (A : Type) : Type := world -> outcome A * world.

Global Instance M_ret : MRet M := fun A a w => (Ret a, w).
Global Instance M_bind : MBind M := fun A B k m w =>
  match m w with
  | (Ret a, w') => k a w'
  | (Raise e, w') => (Raise e, w')
  end.

Definition raise {A : Type} (e : exn) : M A := fun w => (Raise e, w).

(** [try: body  except clause as e: handler e] *)
Definition try_except {A : Type}
    (body : M A) (clause : exn -> bool) (handler : exn -> M A) : M A :=
  fun w =>
    match body w with
    | (Raise e, w') => if clause e then handler e w' else (Raise e, w')
    | r => r
    end.

Definition ask {A : Type} (f : world -> A) : M A := fun w => (Ret (f w), w).
Definition modify (f : world -> world) : M unit := fun w => (Ret tt, f w).

(** Raise the fault, if there is one. *)
Definition check (fault : platform -> option exn) : M unit :=
  fun w => match fault (sys w) with
           | Some e => (Raise e, w)
           | None => (Ret tt, w)
           end.

Definition emit (e : event) : M unit :=
  modify (fun w => set_trace (trace w ++ [e]) w).

(** ** Library calls *)

(** [time.time()] *)
Definition time_time : M Q := ask clock.

(** [time.sleep(seconds)] *)
Definition time_sleep (seconds : Z) : M unit :=
  modify (fun w => set_clock (clock w + inject_Z seconds)%Q w).

(** [sys.exit(code)] *)
Definition sys_exit {A : Type} (code : Z) : M A := raise (SystemExit code).

(** [path.exists()] *)
Definition file_exists {A : Type} (f : file A) : bool :=
  match f with Absent => false | _ => true end.

(** Reading and parsing a file; [rejected] is what the reader raises on text
    it cannot parse. *)
Definition load {A : Type} (f : file A) (rejected : exn) : M A :=
  match f with
  | Absent => raise FileNotFoundError
  | Unreadable e => raise e
  | Garbled => raise rejected
  | Holds a => mret a
  end.

(** [d.get(key, fallback)]; an object that is not a dict has no [get]. *)
Definition dict_get (d : json) (key : string) (fallback : json) : M json :=
  match d with
  | JDict m => mret (default fallback (m !! key))
  | _ => raise AttributeError
  end.

(** [d[key] = value]; only a dict accepts a string key. *)
Definition dict_set (d : json) (key : string) (value : json) : M json :=
  match d with
  | JDict m => mret (JDict (<[key := value]> m))
  | _ => raise TypeError
  end.

(** [sys.stdin.isatty()] *)
Definition stdin_isatty : M bool :=
  ask (fun w => match stdin w with Tty => true | _ => false end).

(** [sys.stdin.read()], kept as the state of the input it was read from. *)
Definition stdin_read : M stdin_state :=
  fun w => match stdin w with
           | StdinFails e => (Raise e, w)
           | Tty => (Ret StdinBlank, w)
           | i => (Ret i, w)
           end.

(** [data.strip()] as a condition. *)
Definition not_blank (data : stdin_state) : bool :=
  match data with StdinGarbled | StdinJson _ => true | _ => false end.

(** [json.loads(data)] *)
Definition json_loads (data : stdin_state) : M json :=
  match data with
  | StdinJson v => mret v
  | _ => raise JSONDecodeError
  end.

(** [str(x)]; the platform's [repr] answers for the objects whose text the
    model does not compute (floats, lists, dicts, [None], booleans). *)
Definition py_str (p : platform) (v : json) : string :=
  match v with
  | JStr s => s
  | JInt n => pretty n
  | _ => repr p v
  end.

(** [print(line)] *)
Definition print (line : string) : M unit := emit (Printed line).

(** [a - b] for a float [a]; the difference is taken exactly. *)
Definition float_sub (a : Q) (b : json) : M Q :=
  match number b with
  | Some x => mret (a - x)%Q
  | None => raise TypeError
  end.

(** * presence.py *)

Module Presence.

(** Discord Application ID. *)
Definition DISCORD_APP_ID : string := "1330919293709324449".

(** Idle timeout in seconds (15 minutes). *)
Definition IDLE_TIMEOUT : Z := 15 * 60.

(** Tool to display name mapping. *)
Definition TOOL_DISPLAY : gmap string string :=
  list_to_map
    [ ("Edit", "Editing");
      ("Write", "Writing");
      ("Read", "Reading");
      ("Bash", "Running command");
      ("Glob", "Searching files");
      ("Grep", "Searching code");
      ("Task", "Delegating task");
      ("WebFetch", "Fetching web content");
      ("WebSearch", "Researching") ].

(** The label of a tool: its entry in the table, ["Working"] for any other
    object that can be hashed; a list or a dict cannot. *)
Definition label (tool : json) : option string :=
  match tool with
  | JStr s => Some (default "Working" (TOOL_DISPLAY !! s))
  | JList _ | JDict _ => None
  | _ => Some "Working"
  end.

(** [TOOL_DISPLAY.get(tool, "Working")] *)
Definition tool_display (tool : json) : M string :=
  match label tool with
  | Some details => mret details
  | None => raise TypeError
  end.

(** Append message to log file. *)
Definition log (m : log_msg) : M unit :=
  check mkdir_fault;;
  check log_fault;;
  emit (Logged m).

(** Read current state from state file. *)
Definition read_state : M json :=
  f ← ask state_file;
  if file_exists f then
    try_except (load f JSONDecodeError)
      (fun e => is_JSONDecodeError e || is_OSError e)
      (fun _ => mret empty_dict)
  else mret empty_dict.

(** Write state to state file. *)
Definition write_state (state : json) : M unit :=
  check mkdir_fault;;
  check state_write_fault;;
  modify (set_state_file (Holds state)).

(** The platform's liveness probe, inside the [try] of [get_daemon_pid]:
    the process table on Windows, signal 0 elsewhere. *)
Definition probe (pid : Z) : M (option Z) :=
  fun w =>
    if win32 (sys w) then
      match tasklist (sys w) pid with
      | Ret true => (Ret (Some pid), w)
      | Ret false => (Ret None, w)
      | Raise e => (Raise e, w)
      end
    else
      match kill0 (sys w) pid with
      | None => (Ret (Some pid), w)
      | Some e => (Raise e, w)
      end.

(** Get PID of running daemon, or None if not running. *)
Definition get_daemon_pid : M (option Z) :=
  f ← ask pid_file;
  if negb (file_exists f) then mret None
  else
    try_except
      (pid ← load f ValueError;
       probe pid)
      (fun e => is_ValueError e || is_ProcessLookupError e
                || is_PermissionError e || is_OSError e)
      (fun _ => mret None).

(** Write current PID to file. *)
Definition write_pid : M unit :=
  check mkdir_fault;;
  check pid_write_fault;;
  pid ← ask (fun w => getpid (sys w));
  modify (set_pid_file (Holds pid)).

(** [PID_FILE.unlink()] *)
Definition unlink_pid : M unit :=
  f ← ask pid_file;
  if file_exists f then
    check pid_unlink_fault;;
    modify (set_pid_file Absent)
  else raise FileNotFoundError.

(** Remove PID file. *)
Definition remove_pid : M unit :=
  try_except unlink_pid is_OSError (fun _ => mret tt).

(** Get project name from current working directory. *)
Definition get_project_name : M string :=
  ask (fun w => path_name (sys w) (default (getcwd (sys w)) (project_dir (sys w)))).

(** Read JSON input from stdin (provided by Claude Code hooks). *)
Definition read_hook_input : M json :=
  try_except
    (tty ← stdin_isatty;
     if negb tty then
       data ← stdin_read;
       if not_blank data then json_loads data else mret empty_dict
     else mret empty_dict)
    (fun e => is_JSONDecodeError e || is_OSError e)
    (fun _ => mret empty_dict).

(** [Path(project).name]: [Path] takes a string. *)
Definition project_name_of (project : json) : M string :=
  match project with
  | JStr s => ask (fun w => path_name (sys w) s)
  | _ => raise TypeError
  end.

(** Spawning the daemon in the background, as seen by the parent:
    [subprocess.Popen] on Windows, [os.fork] elsewhere (the child runs
    [run_daemon] in a process of its own). *)
Definition spawn_daemon : M unit :=
  check spawn_fault;;
  emit SpawnedDaemon.

(** Handle 'start' command - spawn daemon if needed, update state. *)
Definition cmd_start : M unit :=
  hook_input ← read_hook_input;
  env ← ask (fun w => JStr (default "" (project_dir (sys w))));
  project ← dict_get hook_input "cwd" env;
  project_name ← (if truthy project then project_name_of project
                  else get_project_name);
  state ← read_state;
  now ← (t ← time_time; mret (int_of_float t));
  session_start ← dict_get state "session_start" JNull;
  state ← (if negb (truthy session_start)
           then dict_set state "session_start" (JInt now)
           else mret state);
  state ← dict_set state "project" (JStr project_name);
  state ← dict_set state "last_update" (JInt now);
  state ← dict_set state "tool" (JStr "");
  write_state state;;
  pid ← get_daemon_pid;
  if truthy (from_option JInt JNull pid) then log DaemonAlreadyRunning
  else
    log (StartingDaemon project_name);;
    spawn_daemon.

(** Handle 'update' command - update current activity. *)
Definition cmd_update : M unit :=
  hook_input ← read_hook_input;
  tool_name ← dict_get hook_input "tool_name" (JStr "");
  state ← read_state;
  if negb (truthy state) then mret tt
  else
    state ← dict_set state "tool" tool_name;
    now ← (t ← time_time; mret (int_of_float t));
    state ← dict_set state "last_update" (JInt now);
    write_state state;;
    log (UpdatedActivity tool_name).

(** [os.kill(pid, signal.SIGTERM)], or [taskkill /F] on Windows. *)
Definition terminate (pid : Z) : M unit :=
  check (fun p => terminate_fault p pid);;
  emit (Terminated pid).

(** Handle 'stop' command - clear presence and stop daemon. *)
Definition cmd_stop : M unit :=
  log StopCommandReceived;;
  write_state empty_dict;;
  pid ← get_daemon_pid;
  (match pid with
   | Some p =>
       if truthy (JInt p) then
         try_except
           (terminate p;;
            log (StoppedDaemon p))
           is_Exception
           (fun e => log (FailedToStopDaemon e))
       else mret tt
   | None => mret tt
   end);;
  remove_pid.

(** Handle 'status' command - show current status. *)
Definition cmd_status : M unit :=
  pid ← get_daemon_pid;
  state ← read_state;
  (if truthy (from_option JInt JNull pid)
   then print ("Daemon running (PID " ++ pretty (default 0 pid) ++ ")")
   else print "Daemon not running");;
  if truthy state then
    p ← ask sys;
    project ← dict_get state "project" (JStr "Unknown");
    print ("Project: " ++ py_str p project);;
    tool ← dict_get state "tool" (JStr "None");
    print ("Last tool: " ++ py_str p tool);;
    last_update ← dict_get state "last_update" (JInt 0);
    if truthy last_update then
      now ← time_time;
      elapsed ← float_sub now last_update;
      print ("Last update: " ++ pretty (int_of_float elapsed) ++ "s ago")
    else mret tt
  else print "No active session".

(** *** The daemon *)

(** Number of calls issued to the presence client so far. *)
Definition rpc_calls (t : list event) : nat :=
  length (List.filter (fun e => match e with Rpc _ => true | _ => false end) t).

(** A call to the presence client is issued, then succeeds or raises as the
    service decides. *)
Definition issue (c : rpc_call) : M unit :=
  fun w =>
    let w' := set_trace (trace w ++ [Rpc c]) w in
    match rpc_fault (sys w) (rpc_calls (trace w)) with
    | Some e => (Raise e, w')
    | None => (Ret tt, w')
    end.

(** [rpc.method(...)]: [None] has no methods. *)
Definition method (c : rpc_call) : M unit :=
  v ← ask vars;
  if rpc v then issue c else raise AttributeError.

Definition set_rpc (b : bool) : M unit :=
  modify (fun w => set_vars (Locals b (connected (vars w)) (last_sent (vars w))) w).
Definition set_connected (b : bool) : M unit :=
  modify (fun w => set_vars (Locals (rpc (vars w)) b (last_sent (vars w))) w).
Definition set_last_sent (d : gmap string json) : M unit :=
  modify (fun w => set_vars (Locals (rpc (vars w)) (connected (vars w)) d) w).

(** Handle graceful shutdown: the handler installed for SIGTERM and SIGINT. *)
Definition shutdown : M unit :=
  log ReceivedShutdownSignal;;
  remove_pid;;
  sys_exit 0.

(** A point at which the main thread can be interrupted: Python runs the
    handler of a signal that has arrived between two instructions, and a
    blocking call returns early for it.  The model has such a point before
    every call the loop makes. *)
Definition checkpoint : M unit :=
  fun w =>
    let p := proc w in
    if handlers p then
      match pending p with
      | Some O => shutdown (set_proc (Process true (atexit p) None) w)
      | Some (S k) => (Ret tt, set_proc (Process true (atexit p) (Some k)) w)
      | None => (Ret tt, w)
      end
    else (Ret tt, w).

(** [try: body  except c1: h1  except c2: h2] *)
Definition try_except2 {A : Type} (body : M A)
    (c1 : exn -> bool) (h1 : exn -> M A)
    (c2 : exn -> bool) (h2 : exn -> M A) : M A :=
  fun w =>
    match body w with
    | (Raise e, w') =>
        if c1 e then h1 e w'
        else if c2 e then h2 e w'
        else (Raise e, w')
    | r => r
    end.

(** How an iteration of [while True] ends. *)
Inductive flow : Type := Next | Break.

(** Try to connect if not connected (the body of the inner [try]). *)
Definition connect : M unit :=
  checkpoint;; issue (RpcNew DISCORD_APP_ID);;
  set_rpc true;;
  checkpoint;; method RpcConnect;;
  set_connected true;;
  checkpoint;; log ConnectedToDiscord.

(** The branch taken on idle timeout. *)
Definition idle_clear : M unit :=
  checkpoint;; log IdleTimeoutReached;;
  v ← ask vars;
  (if rpc v then
     try_except (checkpoint;; method RpcClear) is_BaseException (fun _ => mret tt)
   else mret tt);;
  checkpoint;; write_state empty_dict;;
  set_last_sent ∅;;
  checkpoint;; time_sleep 5.

(** Update presence: the rest of the iteration for a state that is not idle. *)
Definition publish (state : json) : M unit :=
  tool ← dict_get state "tool" (JStr "");
  project ← dict_get state "project" (JStr "Claude Code");
  now ← time_time;
  session_start ← dict_get state "session_start" (JInt (int_of_float now));
  details ← tool_display tool;
  let current : gmap string json :=
    {[ "details" := JStr details; "project" := project ]} in
  v ← ask vars;
  (if negb (py_eq (JDict current) (JDict (last_sent v))) then
     checkpoint;; log (SendingToDiscord details project);;
     try_except
       (checkpoint;; method (RpcUpdate project details session_start);;
        set_last_sent current)
       is_Exception
       (fun e =>
          checkpoint;; log (FailedToUpdatePresence e);;
          set_connected false;;
          set_rpc false)
   else mret tt);;
  checkpoint;; time_sleep 1.

(** The iteration once connected: read the state and act on it. *)
Definition poll : M unit :=
  checkpoint;;
  state ← read_state;
  if negb (truthy state) then
    checkpoint;; time_sleep 1
  else
    last_update ← dict_get state "last_update" (JInt 0);
    now ← time_time;
    elapsed ← float_sub now last_update;
    if negb (Qle_bool elapsed (inject_Z IDLE_TIMEOUT)) then idle_clear
    else publish state.

(** One iteration of the loop of [run_daemon]. *)
Definition tick : M flow :=
  try_except2
    (v ← ask vars;
     (if negb (connected v) then
        ok ← try_except (connect;; mret true) is_Exception
               (fun e =>
                  checkpoint;; log (FailedToConnect e);;
                  checkpoint;; time_sleep 5;;
                  mret false);
        if ok : bool then poll else mret tt
      else poll);;
     mret Next)
    is_KeyboardInterrupt (fun _ => mret Break)
    is_Exception (fun e =>
                    checkpoint;; log (DaemonError e);;
                    checkpoint;; time_sleep 5;;
                    mret Next).

(** Whether a function that loops has returned within the iterations the
    model was given. *)
Inductive run : Type := Finished | Running.

(** [while True:] for at most [fuel] iterations. *)
Fixpoint loop (fuel : nat) : M run :=
  match fuel with
  | O => mret Running
  | S n =>
      f ← tick;
      match f with
      | Next => loop n
      | Break => mret Finished
      end
  end.

(** The cleanup after the loop. *)
Definition cleanup : M unit :=
  v ← ask vars;
  (if rpc v then
     try_except
       (checkpoint;; method RpcClear;;
        checkpoint;; method RpcClose)
       is_BaseException (fun _ => mret tt)
   else mret tt);;
  checkpoint;; log DaemonStopped.

(** Run the Discord RPC daemon loop. *)
Definition run_daemon (fuel : nat) : M run :=
  log DaemonStarting;;
  write_pid;;
  modify (fun w => set_proc (Process (handlers (proc w)) true (pending (proc w))) w);;
  modify (fun w => set_proc (Process true (atexit (proc w)) (pending (proc w))) w);;
  modify (set_vars (Locals false false ∅));;
  r ← loop fuel;
  match r with
  | Running => mret Running
  | Finished => cleanup;; mret Finished
  end.

(** [main()], with the iterations granted to the daemon loop. *)
Definition main (fuel : nat) (argv : list string) : M run :=
  match argv with
  | _ :: command :: _ =>
      if String.eqb command "start" then cmd_start;; mret Finished
      else if String.eqb command "update" then cmd_update;; mret Finished
      else if String.eqb command "stop" then cmd_stop;; mret Finished
      else if String.eqb command "status" then cmd_status;; mret Finished
      else if String.eqb command "daemon" then run_daemon fuel
      else print ("Unknown command: " ++ command);; sys_exit 1
  | _ =>
      print "Usage: presence.py <start|update|stop|status|daemon>";;
      sys_exit 1
  end.

End Presence.

(** ** Processes *)

(** The functions registered with [atexit] run when the interpreter exits;
    the only one ever registered is [remove_pid]. *)
Definition run_atexit (w : world) : world :=
  if atexit (proc w) then snd (Presence.remove_pid w) else w.

(** Running a script to its exit status: 0 when [main] returns, the code of a
    [SystemExit], 1 for any other exception that reaches the top.  [None]
    when the process is still in its loop. *)
Definition run_process (script : M Presence.run) (w : world) : option Z * world :=
  match script w with
  | (Ret Presence.Running, w') => (None, w')
  | (Ret Presence.Finished, w') => (Some 0, run_atexit w')
  | (Raise (SystemExit code), w') => (Some code, run_atexit w')
  | (Raise _, w') => (Some 1, run_atexit w')
  end.

(** ** Python numbers *)

(** An [int] is exact; a [float] is a binary64 number, kept by its value. *)
Inductive num : Type :=
| NInt (n : Z)
| NFloat (x : Q).

Definition as_num (v : json) : option num :=
  match v with
  | JBool b => Some (NInt (Z.b2z b))
  | JInt n => Some (NInt n)
  | JFloat x => Some (NFloat x)
  | _ => None
  end.

Definition json_of_num (a : num) : json :=
  match a with
  | NInt n => JInt n
  | NFloat x => JFloat x
  end.

Definition num_value (a : num) : Q :=
  match a with
  | NInt n => inject_Z n
  | NFloat x => x
  end.

(** Rounding to the nearest integer, ties to the even one. *)
Definition round_half_even (x : Q) : Z :=
  let f := Qfloor x in
  match (x - inject_Z f ?= 1 # 2)%Q with
  | Lt => f
  | Gt => f + 1
  | Eq => if Z.even f then f else f + 1
  end.

(** The binary64 number nearest to [x], ties to even (53 bits of mantissa;
    overflow and subnormal numbers are left out). *)
Definition binary64 (x : Q) : Q :=
  if Qeq_bool x 0 then 0%Q
  else
    let a := Qabs x in
    let e0 := Z.log2 (Qnum a) - Z.log2 (Zpos (Qden a)) in
    let e := if Qle_bool (2 ^ e0) a then e0 else e0 - 1 in
    let m := round_half_even (a / 2 ^ (e - 52)) in
    let v := (inject_Z m * 2 ^ (e - 52))%Q in
    Qred (if Qle_bool 0 x then v else - v).

(** [float(a)] *)
Definition to_float (a : num) : Q :=
  match a with
  | NInt n => binary64 (inject_Z n)
  | NFloat x => x
  end.

(** [a + b], [a * b]: exact on two ints, else rounded float arithmetic. *)
Definition num_add (a b : num) : num :=
  match a, b with
  | NInt x, NInt y => NInt (x + y)
  | _, _ => NFloat (binary64 (to_float a + to_float b))
  end.

Definition num_mul (a b : num) : num :=
  match a, b with
  | NInt x, NInt y => NInt (x * y)
  | _, _ => NFloat (binary64 (to_float a * to_float b))
  end.

(** [a / b] for [b] other than zero: the quotient of two ints is rounded
    once. *)
Definition num_div (a b : num) : Q :=
  match a, b with
  | NInt x, NInt y => binary64 (inject_Z x / inject_Z y)
  | _, _ => binary64 (to_float a / to_float b)
  end.

(** [a >= b], [a > b]: numbers compare by value. *)
Definition num_ge (a b : num) : bool := Qle_bool (num_value b) (num_value a).
Definition num_gt (a b : num) : bool := negb (Qle_bool (num_value a) (num_value b)).

(** [s] padded with zeros on the left to [width] characters. *)
Definition zero_pad (width : nat) (s : string) : string :=
  String.concat "" (replicate (width - String.length s) "0") ++ s.

(** [format(x, ".<digits>f")] of a float, for one digit or more: the exact
    value rounded to [digits] decimals, ties to even. *)
Definition fixed (digits : nat) (x : Q) : string :=
  let scale := 10 ^ Z.of_nat digits in
  let n := round_half_even (Qabs x * inject_Z scale) in
  (if Qle_bool 0 x then "" else "-")
  ++ pretty (n / scale) ++ "." ++ zero_pad digits (pretty (n mod scale)).

(** [a + b] *)
Definition py_add (a b : json) : M json :=
  match as_num a, as_num b with
  | Some x, Some y => mret (json_of_num (num_add x y))
  | _, _ =>
      match a, b with
      | JStr s, JStr t => mret (JStr (s ++ t))
      | JList s, JList t => mret (JList (s ++ t))
      | _, _ => raise TypeError
      end
  end.

(** [a * k] for an int [k] *)
Definition py_mul (a : json) (k : Z) : M json :=
  match as_num a with
  | Some x => mret (json_of_num (num_mul x (NInt k)))
  | None =>
      match a with
      | JStr s => mret (JStr (String.concat "" (replicate (Z.to_nat k) s)))
      | JList l => mret (JList (concat (replicate (Z.to_nat k) l)))
      | _ => raise TypeError
      end
  end.

(** [a / k] for an int [k] other than zero *)
Definition py_div (a : json) (k : Z) : M json :=
  match as_num a with
  | Some x => mret (JFloat (num_div x (NInt k)))
  | None => raise TypeError
  end.

(** A number where the code needs one (ordering, float formatting). *)
Definition need_num (a : json) : M num :=
  match as_num a with
  | Some x => mret x
  | None => raise TypeError
  end.

(** * statusline.py *)

Module Statusline.

(** Append message to log file. *)
Definition log (m : log_msg) : M unit :=
  try_except
    (check mkdir_fault;;
     check log_fault;;
     emit (Logged m))
    is_OSError (fun _ => mret tt).

(** Read current state from state file. *)
Definition read_state : M json :=
  f ← ask state_file;
  if file_exists f then
    try_except (load f JSONDecodeError)
      (fun e => is_JSONDecodeError e || is_OSError e)
      (fun _ => mret empty_dict)
  else mret empty_dict.

(** Write state to state file. *)
Definition write_state (state : json) : M unit :=
  try_except
    (check mkdir_fault;;
     check state_write_fault;;
     modify (set_state_file (Holds state)))
    is_OSError (fun e => log (CouldNotWriteState e)).

(** Format token count for display (e.g., 12.5k, 1.2M). *)
Definition format_tokens (p : platform) (count : num) : string :=
  if num_ge count (NInt 1000000) then
    fixed 1 (num_div count (NInt 1000000)) ++ "M"
  else if num_ge count (NInt 1000) then
    fixed 1 (num_div count (NInt 1000)) ++ "k"
  else py_str p (json_of_num count).

(** The cost shown in the statusline:
    [f"${total_cost:.2f}" if total_cost >= 0.01 else f"${total_cost:.3f}"]. *)
Definition format_cost (total_cost : num) : string :=
  if num_ge total_cost (NFloat (binary64 (1 # 100))) then
    "$" ++ fixed 2 (to_float total_cost)
  else "$" ++ fixed 3 (to_float total_cost).

(** [json.load(sys.stdin)] *)
Definition json_load_stdin : M json :=
  data ← stdin_read;
  json_loads data.

(** The merge of the token data into the state of a session. *)
Definition merge (state model_display model_id tokens : json) : M unit :=
  state ← (if truthy model_display then dict_set state "model" model_display
           else mret state);
  state ← (if truthy model_id then dict_set state "model_id" model_id
           else mret state);
  state ← dict_set state "tokens" tokens;
  now ← time_time;
  state ← dict_set state "statusline_update" (JInt (int_of_float now));
  write_state state.

(** The rest of [main] once the input has been read. *)
Definition handle (data : json) : M unit :=
  model_info ← dict_get data "model" empty_dict;
  model_display ← dict_get model_info "display_name" (JStr "");
  model_id ← dict_get model_info "id" (JStr "");
  cost_info ← dict_get data "cost" empty_dict;
  total_cost ← dict_get cost_info "total_cost_usd" (JFloat 0);
  context ← dict_get data "context_window" empty_dict;
  total_input ← dict_get context "total_input_tokens" (JInt 0);
  total_output ← dict_get context "total_output_tokens" (JInt 0);
  usage ← dict_get context "current_usage" JNull;
  let current_usage := if truthy usage then usage else empty_dict in
  cache_read ← dict_get current_usage "cache_read_input_tokens" (JInt 0);
  cache_write ← dict_get current_usage "cache_creation_input_tokens" (JInt 0);
  simple_tokens ← py_add total_input total_output;
  simple_cost ← (a ← py_mul total_input 4;
                 b ← py_mul total_output 12;
                 c ← py_add a b;
                 py_div c 1000000);
  state ← read_state;
  (if truthy state then
     merge state model_display model_id
       (JDict {[ "input" := total_input;
                 "output" := total_output;
                 "cache_read" := cache_read;
                 "cache_write" := cache_write;
                 "cost" := total_cost;
                 "simple_cost" := simple_cost ]})
   else mret tt);;
  total_tokens ← (t ← py_add total_input total_output; need_num t);
  p ← ask sys;
  if num_gt total_tokens (NInt 0) then
    cost ← need_num total_cost;
    print ("[" ++ py_str p model_display ++ "] "
           ++ format_tokens p total_tokens ++ " | " ++ format_cost cost)
  else if truthy model_display then
    print ("[" ++ py_str p model_display ++ "]")
  else print "".

(** Main statusline handler. *)
Definition main : M unit :=
  r ← try_except (v ← json_load_stdin; mret (Some v))
        (fun e => is_JSONDecodeError e || is_ValueError e)
        (fun _ => print "";; mret None);
  match r with
  | Some data => handle data
  | None => mret tt
  end.

End Statusline.

(** * Commands as processes *)

(** A command as the hook system runs it: a process of its own, started at
    some time with some standard input. *)
Record invocation : Type := Invocation {
  at_time : Q;
  input : stdin_state;
  argv : list string
}.

Definition invoke (i : invocation) (w : world) : world :=
  snd (run_process (Presence.main 0 (argv i))
         (set_stdin (input i) (set_clock (at_time i) w))).

(** Commands run one after the other. *)
Definition invoke_all (cmds : list invocation) (w : world) : world :=
  fold_left (fun w i => invoke i w) cmds w.

Definition start_at (t : Q) (i : stdin_state) : invocation :=
  Invocation t i ["presence.py"; "start"].
Definition update_at (t : Q) (i : stdin_state) : invocation :=
  Invocation t i ["presence.py"; "update"].

(** * Vocabulary of the properties *)

(** ** Frames *)

(** A computation that only consults the world. *)
Definition pure {A : Type} (m : M A) : Prop := forall w, snd (m w) = w.

(** A computation that leaves a part [f] of the world as it is. *)
Definition preserves {A X : Type} (f : world -> X) (m : M A) : Prop :=
  forall w, f (snd (m w)) = f w.

(** A computation that leaves the state file as it is. *)
Definition keeps_state {A : Type} (m : M A) : Prop := preserves state_file m.


(** The state store takes writes. *)
Definition writable (w : world) : Prop :=
  mkdir_fault (sys w) = None /\ state_write_fault (sys w) = None.

(** ** The singleton guard *)

(** What the platform's probe says of a process: listed in the process table
    on Windows, reached by signal 0 elsewhere; not listed, or no such
    process. *)
Definition verified_alive (p : platform) (pid : Z) : Prop :=
  if win32 p then tasklist p pid = Ret true else kill0 p pid = None.
Definition found_dead (p : platform) (pid : Z) : Prop :=
  if win32 p then tasklist p pid = Ret false
  else kill0 p pid = Some ProcessLookupError.

(** ** Sessions *)

(** The command reads the object [v] from the standard input [i]: the text
    of [v], or [{}] when there is nothing to read or no JSON in it. *)
Definition reads (i : stdin_state) (v : json) : Prop :=
  forall w, stdin w = i -> Presence.read_hook_input w = (Ret v, w).

(** A working directory [Path] accepts, or one the command replaces. *)
Definition usable_cwd (v : json) : Prop :=
  (exists s, v = JStr s) \/ truthy v = false.

(** Hook input of a start: nothing, or a JSON object whose [cwd], when
    given, is a string (or is empty). *)
Definition start_input (i : stdin_state) : Prop :=
  exists m, reads i (JDict m) /\
            (m !! "cwd" = None \/ exists v, m !! "cwd" = Some v /\ usable_cwd v).

(** Hook input of an update: nothing, or a JSON object; [tool] is what the
    command takes as its [tool_name]. *)
Definition update_input (i : stdin_state) (tool : json) : Prop :=
  exists m, reads i (JDict m) /\ default (JStr "") (m !! "tool_name") = tool.

(** A session is under way since second [t0]. *)
Definition session_since (t0 : Z) (w : world) : Prop :=
  exists d, state_file w = Holds (JDict d) /\
            d !! "session_start" = Some (JInt t0).

(** The record [start] writes at second [now] over the record [d]. *)
Definition started (now : Z) (project_name : string) (d : gmap string json)
  : gmap string json :=
  <["tool" := JStr ""]>
    (<["last_update" := JInt now]>
       (<["project" := JStr project_name]>
          (if truthy (default JNull (d !! "session_start")) then d
           else <["session_start" := JInt now]> d))).

(** The record [update] writes at second [now] over the record [d]. *)
Definition updated (now : Z) (tool_name : json) (d : gmap string json)
  : gmap string json :=
  <["last_update" := JInt now]> (<["tool" := tool_name]> d).

(** ** The statusline *)





(** ** The daemon *)


(** Calls to [rpc.clear] and [rpc.close] among the events. *)
Definition clears (t : list event) : nat :=
  length (List.filter
            (fun e => match e with Rpc RpcClear => true | _ => false end) t).
Definition closes (t : list event) : nat :=
  length (List.filter
            (fun e => match e with Rpc RpcClose => true | _ => false end) t).






(** No library call of [w] raises [KeyboardInterrupt]. *)
Definition quiet_libraries (w : world) : Prop :=
  mkdir_fault (sys w) <> Some KeyboardInterrupt /\
  log_fault (sys w) <> Some KeyboardInterrupt /\
  state_write_fault (sys w) <> Some KeyboardInterrupt /\
  pid_write_fault (sys w) <> Some KeyboardInterrupt /\
  pid_unlink_fault (sys w) <> Some KeyboardInterrupt /\
  (forall n, rpc_fault (sys w) n <> Some KeyboardInterrupt) /\
  state_file w <> Unreadable KeyboardInterrupt.

(** A computation that, with such libraries, keeps them so, issues no
    [rpc.close()], does not raise [KeyboardInterrupt], and returns a value
    that satisfies [ok] if it returns. *)
Definition steady {A : Type} (ok : A -> Prop) (m : M A) : Prop :=
  forall w, quiet_libraries w ->
    quiet_libraries (snd (m w)) /\
    closes (trace (snd (m w))) = closes (trace w) /\
    match fst (m w) with
    | Ret a => ok a
    | Raise e => e <> KeyboardInterrupt
    end.

(** ** The commands *)

(** The directory whose name a [start] records for the hook input [m]: the
    [cwd] of the hook if it is a string other than the empty one, else
    [CLAUDE_PROJECT_DIR] if it is set, else the working directory. *)
Definition project_source (p : platform) (m : gmap string json) : string :=
  match m !! "cwd" with
  | Some (JStr s) =>
      if truthy (JStr s) then s else default (getcwd p) (project_dir p)
  | _ => default (getcwd p) (project_dir p)
  end.

(** A computation whose only effect is to print lines. *)
Definition only_prints {A : Type} (m : M A) : Prop :=
  forall w, exists lines,
    snd (m w) = set_trace (trace w ++ map Printed lines) w.

(** The commands [main] knows. *)
Definition commands : list string :=
  ["start"; "update"; "stop"; "status"; "daemon"].

(** What a [stop] does about the daemon the liveness check reported: the
    signal sent and the line logged, or the failure logged. *)
Definition stop_events (p : platform) (r : option Z) : list event :=
  match r with
  | Some pid =>
      if truthy (JInt pid) then
        match terminate_fault p pid with
        | None => [Terminated pid; Logged (StoppedDaemon pid)]
        | Some e => [Logged (FailedToStopDaemon e)]
        end
      else []
  | None => []
  end.

(** The commands as the hook system runs them. *)
Definition stop_at (t : Q) (i : stdin_state) : invocation :=
  Invocation t i ["presence.py"; "stop"].
Definition status_at (t : Q) (i : stdin_state) : invocation :=
  Invocation t i ["presence.py"; "status"].

(** ** What the daemon loop keeps *)

(** A computation that keeps the invariant [I], returns values that satisfy
    [ok] and raises only exceptions that satisfy [E]. *)
Definition ensures {A : Type} (I : world -> Prop)
    (ok : A -> Prop) (E : exn -> Prop) (m : M A) : Prop :=
  forall w, I w ->
    I (snd (m w)) /\
    match fst (m w) with
    | Ret a => ok a
    | Raise e => E e
    end.

(** Any value will do. *)
Definition anything {A : Type} (a : A) : Prop := True.

(** The exceptions [except Exception] catches, and none at all. *)
Definition caught (e : exn) : Prop := is_Exception e = true.
Definition no_exception (e : exn) : Prop := False.

(** No termination request is on its way, the log takes lines, whatever the
    presence service, the state file or its writing raises is an
    [Exception], and the PID file is [f]. *)
Definition calm (f : file Z) (w : world) : Prop :=
  pending (proc w) = None /\
  mkdir_fault (sys w) = None /\ log_fault (sys w) = None /\
  (forall e, state_write_fault (sys w) = Some e -> caught e) /\
  (forall n e, rpc_fault (sys w) n = Some e -> caught e) /\
  (forall e, state_file w = Unreadable e -> caught e) /\
  pid_file w = f.

(** What the exit of the daemon process depends on: the platform and
    whether [remove_pid] is registered with [atexit]. *)
Definition exit_hook (w : world) : platform * bool := (sys w, atexit (proc w)).

(** ** Lines printed *)

(** Lines printed among the events. *)
Definition prints (t : list event) : nat :=
  length (List.filter (fun e => match e with Printed _ => true | _ => false end) t).

(** ** The statusline's record and line *)

(** The record the statusline stores under [tokens]: the counts and the
    cost it was given, and its own estimate of the cost at 4 dollars per
    million input tokens and 12 per million output tokens. *)
Definition token_record (i o : Z) (cache_read cache_write cost : json)
  : gmap string json :=
  {[ "input" := JInt i;
     "output" := JInt o;
     "cache_read" := cache_read;
     "cache_write" := cache_write;
     "cost" := cost;
     "simple_cost" := JFloat (binary64 (inject_Z (i * 4 + o * 12) / 1000000)) ]}.



(** * Sample worlds *)

(** The last component of a POSIX path that does not end in a slash. *)
Fixpoint last_component (acc p : string) : string :=
  match p with
  | EmptyString => acc
  | String c rest =>
      if Ascii.eqb c "/" then last_component "" rest
      else last_component (acc ++ String c "") rest
  end.

(** A POSIX machine: the state file and the log take writes or raise the
    given faults, [alive] answers signal 0 and [service] the presence
    client. *)
Definition machine (state_write log : option exn)
    (alive : Z -> option exn) (service : nat -> option exn) : platform :=
  Platform false 4242 None "/home/u/myproj" (last_component "") (fun _ => "")
    None state_write None None log alive (fun _ => Ret false) (fun _ => None)
    None service.

(** A machine on which nothing fails and no other process is alive. *)
Definition healthy : platform :=
  machine None None (fun _ => Some ProcessLookupError) (fun _ => None).

(** A fresh data directory. *)
Definition fresh (p : platform) : world :=
  World p 1700000000 Tty Absent Absent [] (Locals false false ∅)
    (Process false false None).

(** A session as [start] and [update] leave it. *)
Definition session (tool : string) (last_update : Z) : json :=
  JDict {[ "session_start" := JInt 1700000000;
           "project" := JStr "myproj";
           "last_update" := JInt last_update;
           "tool" := JStr tool ]}.

(** An active session that the hook left some seconds before the clock of
    [fresh], on a machine whose state file cannot be written. *)
Definition read_only : world :=
  set_stdin (StdinJson (JDict {[ "tool_name" := JStr "Edit" ]}))
    (set_state_file (Holds (session "" 1699999990))
       (fresh (machine (Some PermissionError) None
                 (fun _ => Some ProcessLookupError) (fun _ => None)))).

(** A state file whose bytes are not UTF-8. *)
Definition undecodable : world :=
  set_state_file (Unreadable UnicodeDecodeError) (fresh healthy).

(** A PID file that names process 4242, which the probe finds alive. *)
Definition daemon_up : world :=
  set_pid_file (Holds 4242)
    (fresh (machine None None
              (fun pid => if pid =? 4242 then None else Some ProcessLookupError)
              (fun _ => None))).

(** A PID file left behind by a daemon that is gone. *)
Definition daemon_gone : world := set_pid_file (Holds 4242) (fresh healthy).

(** What the statusline receives after 12000 input and 500 output tokens
    that cost 0.004 dollars: the parser makes of each decimal the binary64
    number nearest to it. *)
Definition statusline_input : stdin_state :=
  StdinJson
    (JDict {[ "model" := JDict {[ "display_name" := JStr "Opus";
                                  "id" := JStr "claude-opus" ]};
              "cost" := JDict {[ "total_cost_usd" := JFloat (binary64 (4 # 1000)) ]};
              "context_window" :=
                JDict {[ "total_input_tokens" := JInt 12000;
                         "total_output_tokens" := JInt 500 ]} ]}).

(** The statusline runs over a session that the hook updated last at second
    1700000010. *)
Definition refresh : world :=
  set_stdin statusline_input
    (set_clock 1700000300
       (set_state_file (Holds (session "Edit" 1700000010)) (fresh healthy))).

(** A daemon that is connected and has sent nothing yet, at time [t] over
    the state file [f]. *)
Definition connected_daemon (f : file json) (t : Q) : world :=
  set_vars (Locals true true ∅)
    (set_proc (Process true true None)
       (set_pid_file (Holds 4242)
          (set_clock t (set_state_file f (fresh healthy))))).

(** The daemon process is about to start over an active session; a
    termination request reaches it at its [k]-th interruption point. *)
Definition signalled (k : nat) : world :=
  set_proc (Process false false (Some k))
    (set_clock 1700000011
       (set_state_file (Holds (session "Edit" 1700000010)) (fresh healthy))).

(** The same over a session that has been idle for more than 15 minutes. *)
Definition signalled_idle (k : nat) : world :=
  set_proc (Process false false (Some k))
    (set_clock 1700001000
       (set_state_file (Holds (session "Edit" 1700000010)) (fresh healthy))).

(** An active session and a stale PID file on a machine whose log file
    cannot be opened. *)
Definition mute : world :=
  set_pid_file (Holds 4242)
    (set_state_file (Holds (session "Edit" 1700000010))
       (fresh (machine None (Some PermissionError)
                 (fun _ => Some ProcessLookupError) (fun _ => None)))).


(** * Properties *)

(** ** The state store *)

Section StateStore.

Lemma presence_read_state_world (w : world) :
  snd (Presence.read_state w) = w.
Proof.
  unfold Presence.read_state, mbind, M_bind, ask, try_except, load, raise.
  destruct (state_file w) as [ | e | | v]; simpl; try reflexivity.
  destruct (is_JSONDecodeError e || is_OSError e); reflexivity.
Qed.


(** A missing file, text that does not parse and a read that fails with an
    [OSError] all give the empty record. *)
Lemma read_state_tolerant (w : world) :
  state_file w = Absent \/ state_file w = Garbled \/
  (exists e, state_file w = Unreadable e /\ is_OSError e = true) ->
  Presence.read_state w = (Ret empty_dict, w).
Proof.
  unfold Presence.read_state, mbind, M_bind, ask, try_except, load, raise.
  intros [H | [H | (e & H & He)]]; rewrite H; simpl; try reflexivity.
  rewrite He, orb_true_r. reflexivity.
Qed.

(** A file that parses gives the record last written to it. *)
Lemma read_state_holds (w : world) (v : json) :
  state_file w = Holds v -> Presence.read_state w = (Ret v, w).
Proof.
  unfold Presence.read_state, mbind, M_bind, ask, try_except, load.
  intros H; rewrite H; reflexivity.
Qed.

(** What is read depends on the state file alone. *)
Lemma read_state_same_file (w w' : world) :
  state_file w = state_file w' ->
  fst (Presence.read_state w) = fst (Presence.read_state w').
Proof.
  intros H.
  unfold Presence.read_state, mbind, M_bind, ask, try_except, load, raise.
  simpl. rewrite <- H.
  destruct (state_file w) as [ | e | | v]; simpl; try reflexivity.
  destruct (_ || _); reflexivity.
Qed.

Lemma read_after_write (w : world) (v : json) :
  mkdir_fault (sys w) = None -> state_write_fault (sys w) = None ->
  fst ((Presence.write_state v;; Presence.read_state) w) = Ret v.
Proof.
  intros Hm Hs.
  unfold Presence.write_state, Presence.read_state, mbind, M_bind, check, modify, ask.
  rewrite Hm, Hs. reflexivity.
Qed.

End StateStore.

(** C8: [read_state] gives the empty record for a missing file, for a read
    that fails with an [OSError] and for text that is not JSON, but not for
    every file it cannot make a record of: on a state file whose bytes are
    not UTF-8, [read_text] raises [UnicodeDecodeError], which neither script
    catches, and the [update] command ends with exit status 1. *)
Theorem read_state_undecodable_raises :
  fst (Presence.read_state undecodable) = Raise UnicodeDecodeError /\
  fst (Statusline.read_state undecodable) = Raise UnicodeDecodeError /\
  fst (run_process (Presence.main 0 ["presence.py"; "update"]) undecodable)
  = Some 1.
Proof. repeat split; reflexivity. Qed.

(** ** Failing writes *)

Section FailingWrites.



(** The daemon script's [write_state] lets it through. *)
Lemma presence_write_state_raises (state : json) (w : world) (e : exn) :
  mkdir_fault (sys w) = None -> state_write_fault (sys w) = Some e ->
  Presence.write_state state w = (Raise e, w).
Proof.
  intros Hm Hs.
  unfold Presence.write_state, mbind, M_bind, check.
  rewrite Hm, Hs. reflexivity.
Qed.

End FailingWrites.

(** C2: a failing write of the state file is swallowed by the statusline's
    [write_state] only.  In presence.py [write_state] has no handler: with a
    state file that cannot be written it raises [PermissionError], and an
    [update] command over an active session ends with exit status 1, the
    session record left as it was. *)
Theorem presence_write_state_propagates :
  fst (Presence.write_state empty_dict read_only) = Raise PermissionError /\
  fst (run_process (Presence.main 0 ["presence.py"; "update"]) read_only)
  = Some 1 /\
  state_file (snd (run_process (Presence.main 0 ["presence.py"; "update"])
                     read_only))
  = Holds (session "" 1699999990) /\
  fst (Statusline.write_state empty_dict read_only) = Ret tt.
Proof. repeat split; vm_compute; reflexivity. Qed.

(** ** The singleton guard *)

Section SingletonGuard.

Lemma probe_world (pid : Z) (w : world) : snd (Presence.probe pid w) = w.
Proof.
  unfold Presence.probe.
  destruct (win32 (sys w)).
  - destruct (tasklist (sys w) pid) as [[ | ] | e]; reflexivity.
  - destruct (kill0 (sys w) pid); reflexivity.
Qed.

Lemma probe_some (pid pid' : Z) (w : world) :
  fst (Presence.probe pid w) = Ret (Some pid') ->
  pid' = pid /\ verified_alive (sys w) pid.
Proof.
  unfold Presence.probe, verified_alive.
  destruct (win32 (sys w)).
  - destruct (tasklist (sys w) pid) as [[ | ] | e]; simpl; intros H;
      inversion H; auto.
  - destruct (kill0 (sys w) pid); simpl; intros H; inversion H; auto.
Qed.

Lemma probe_dead (pid : Z) (w : world) :
  found_dead (sys w) pid ->
  Presence.probe pid w = (Ret None, w) \/
  Presence.probe pid w = (Raise ProcessLookupError, w).
Proof.
  unfold Presence.probe, found_dead.
  destruct (win32 (sys w)); intros ->; auto.
Qed.

(** The check leaves the world, and so the PID file, as it found it. *)
Lemma get_daemon_pid_world (w : world) :
  snd (Presence.get_daemon_pid w) = w.
Proof.
  unfold Presence.get_daemon_pid, try_except, mbind, M_bind, ask, load, raise.
  destruct (pid_file w) as [ | e | | pid]; simpl; try reflexivity.
  - destruct (_ || _); reflexivity.
  - pose proof (probe_world pid w) as Hw.
    destruct (Presence.probe pid w) as [[r | e] w']; simpl in *; subst;
      [reflexivity | ].
    destruct (_ || _); reflexivity.
Qed.

End SingletonGuard.

(** C7: [get_daemon_pid] returns a process id only when the PID file is
    there, parses as that integer and the platform's probe finds the process
    alive; it returns [None] when the file is absent, cannot be read or does
    not parse, or names a process the probe finds dead; and it never touches
    the PID file. *)
Theorem get_daemon_pid_live_only (w : world) :
  (forall pid, fst (Presence.get_daemon_pid w) = Ret (Some pid) ->
     pid_file w = Holds pid /\ verified_alive (sys w) pid) /\
  (pid_file w = Absent \/ pid_file w = Garbled \/
   (exists e, pid_file w = Unreadable e /\
              (is_ValueError e || is_OSError e) = true) \/
   (exists pid, pid_file w = Holds pid /\ found_dead (sys w) pid) ->
   fst (Presence.get_daemon_pid w) = Ret None) /\
  pid_file (snd (Presence.get_daemon_pid w)) = pid_file w.
Proof.
  split; [ | split].
  - intros pid.
    unfold Presence.get_daemon_pid, try_except, mbind, M_bind, ask, load, raise.
    destruct (pid_file w) as [ | e | | p]; simpl; try discriminate.
    + destruct (_ || _); discriminate.
    + pose proof (probe_some p pid w) as Hp.
      destruct (Presence.probe p w) as [[r | e] w']; simpl in *.
      * intros H; inversion H; subst.
        destruct (Hp eq_refl) as [-> Ha]. auto.
      * destruct (_ || _); discriminate.
  - unfold Presence.get_daemon_pid, try_except, mbind, M_bind, ask, load, raise.
    intros [H | [H | [(e & H & He) | (pid & H & Hd)]]]; rewrite H; simpl;
      try reflexivity.
    + apply orb_true_iff in He. destruct He as [He | He].
      * rewrite He. reflexivity.
      * rewrite He, !orb_true_r. reflexivity.
    + destruct (probe_dead pid w Hd) as [-> | ->]; reflexivity.
  - rewrite get_daemon_pid_world. reflexivity.
Qed.

(** The check at work: a live daemon is reported, a stale PID file is not,
    and stays where it is. *)
Lemma get_daemon_pid_live_only_witness :
  fst (Presence.get_daemon_pid daemon_up) = Ret (Some 4242) /\
  pid_file daemon_up = Holds 4242 /\
  verified_alive (sys daemon_up) 4242 /\
  fst (Presence.get_daemon_pid daemon_gone) = Ret None /\
  pid_file (snd (Presence.get_daemon_pid daemon_gone)) = Holds 4242.
Proof.
  destruct (get_daemon_pid_live_only daemon_up) as (H1 & _ & _).
  destruct (get_daemon_pid_live_only daemon_gone) as (_ & H2 & H3).
  split; [reflexivity | ].
  split; [apply (H1 4242); reflexivity | ].
  split; [apply (H1 4242); reflexivity | ].
  split; [ | exact H3].
  apply H2. right; right; right. exists 4242. split; reflexivity.
Defined.

(** ** Stepping through the monad *)

Section Steps.
Context {A B : Type}.

Lemma bind_run (m : M A) (k : A -> M B) (w w' : world) (a : A) :
  m w = (Ret a, w') -> (m ≫= k) w = k a w'.
Proof. unfold mbind, M_bind. intros ->. reflexivity. Qed.

Lemma bind_raise (m : M A) (k : A -> M B) (w w' : world) (e : exn) :
  m w = (Raise e, w') -> (m ≫= k) w = (Raise e, w').
Proof. unfold mbind, M_bind. intros ->. reflexivity. Qed.

Lemma bind_assoc {C : Type} (m : M A) (k1 : A -> M B) (k2 : B -> M C) (w : world) :
  ((m ≫= k1) ≫= k2) w = (m ≫= fun a => k1 a ≫= k2) w.
Proof. unfold mbind, M_bind. destruct (m w) as [[a | e] w']; reflexivity. Qed.

Lemma bind_pure (m : M A) (k : A -> M B) (w : world) :
  pure m ->
  (m ≫= k) w = match fst (m w) with
                | Ret a => k a w
                | Raise e => (Raise e, w)
                end.
Proof.
  intros Hm. specialize (Hm w). unfold mbind, M_bind.
  destruct (m w) as [[a | e] w']; simpl in *; subst; reflexivity.
Qed.

Lemma bind_keeps_state (m : M A) (k : A -> M B) :
  keeps_state m -> (forall a, keeps_state (k a)) -> keeps_state (m ≫= k).
Proof.
  intros Hm Hk w. specialize (Hm w). unfold mbind, M_bind.
  destruct (m w) as [[a | e] w']; simpl in *; [ | assumption].
  rewrite Hk. assumption.
Qed.

Lemma pure_keeps_state (m : M A) : pure m -> keeps_state m.
Proof. intros Hm w. rewrite Hm. reflexivity. Qed.

End Steps.

Lemma dict_get_pure (d : json) (key : string) (fallback : json) :
  pure (dict_get d key fallback).
Proof. intros w. destruct d; reflexivity. Qed.

Lemma dict_set_pure (d : json) (key : string) (value : json) :
  pure (dict_set d key value).
Proof. intros w. destruct d; reflexivity. Qed.

Lemma read_hook_input_pure : pure Presence.read_hook_input.
Proof.
  intros w.
  unfold Presence.read_hook_input, try_except, mbind, M_bind, stdin_isatty,
    stdin_read, ask.
  destruct (stdin w) as [ | e | | | v] eqn:E; simpl; rewrite ?E; simpl;
    try reflexivity.
  destruct (_ || _); reflexivity.
Qed.

Lemma read_hook_input_json (w : world) (v : json) :
  stdin w = StdinJson v -> Presence.read_hook_input w = (Ret v, w).
Proof.
  intros H.
  unfold Presence.read_hook_input, try_except, mbind, M_bind, stdin_isatty,
    stdin_read, ask.
  rewrite H. simpl. rewrite H. reflexivity.
Qed.

Lemma reads_json (v : json) : reads (StdinJson v) v.
Proof. intros w H. apply read_hook_input_json, H. Qed.

(** A terminal, an empty input and text that is not JSON all read as [{}]. *)
Lemma reads_nothing (i : stdin_state) :
  i = Tty \/ i = StdinBlank \/ i = StdinGarbled -> reads i empty_dict.
Proof.
  intros Hi w H.
  unfold Presence.read_hook_input, try_except, mbind, M_bind, stdin_isatty,
    stdin_read, ask.
  rewrite H. destruct Hi as [-> | [-> | ->]]; simpl; rewrite ?H; reflexivity.
Qed.

Lemma read_state_pure : pure Presence.read_state.
Proof. exact presence_read_state_world. Qed.

Lemma get_daemon_pid_pure : pure Presence.get_daemon_pid.
Proof. exact get_daemon_pid_world. Qed.

Lemma log_keeps_state (m : log_msg) : keeps_state (Presence.log m).
Proof.
  intros w. unfold Presence.log, mbind, M_bind, check, emit, modify.
  destruct (mkdir_fault (sys w)); [reflexivity | ].
  destruct (log_fault (sys w)); reflexivity.
Qed.

Lemma spawn_daemon_keeps_state : keeps_state Presence.spawn_daemon.
Proof.
  intros w. unfold Presence.spawn_daemon, mbind, M_bind, check, emit, modify.
  destruct (spawn_fault (sys w)); reflexivity.
Qed.

Lemma remove_pid_keeps_state : keeps_state Presence.remove_pid.
Proof.
  intros w.
  unfold Presence.remove_pid, Presence.unlink_pid, try_except, mbind, M_bind,
    ask, check, modify, raise.
  destruct (pid_file w); simpl; try reflexivity;
    destruct (pid_unlink_fault (sys w)) as [x | ]; simpl; try reflexivity;
    destruct (is_OSError x); reflexivity.
Qed.

(** The exit of the interpreter leaves the state file alone. *)
Lemma run_process_state (script : M Presence.run) (w : world) :
  state_file (snd (run_process script w)) = state_file (snd (script w)).
Proof.
  unfold run_process, run_atexit.
  destruct (script w) as [[[ | ] | e] w']; simpl; try reflexivity;
    try (destruct e); simpl;
    destruct (atexit (proc w')); try reflexivity; apply remove_pid_keeps_state.
Qed.

(** ** The command handlers *)

(** C6: an [update] that finds no session (the state it reads is empty)
    changes nothing, whatever its input: the world after the command, and
    with it the state file, is the world before it. *)
Theorem update_without_session_is_noop (w : world) (state : json) :
  fst (Presence.read_state w) = Ret state -> truthy state = false ->
  snd (Presence.cmd_update w) = w /\
  fst (Presence.read_state (snd (Presence.cmd_update w))) = Ret state.
Proof.
  intros Hr Hs.
  assert (snd (Presence.cmd_update w) = w) as Hw.
  { unfold Presence.cmd_update.
    rewrite (bind_pure _ _ _ read_hook_input_pure).
    destruct (fst (Presence.read_hook_input w)) as [hook_input | e];
      [ | reflexivity].
    rewrite (bind_pure _ _ _ (dict_get_pure _ _ _)).
    destruct (fst (dict_get hook_input "tool_name" (JStr "") w))
      as [tool_name | e]; [ | reflexivity].
    rewrite (bind_pure _ _ _ read_state_pure), Hr, Hs. reflexivity. }
  rewrite Hw. auto.
Qed.

(** An update on a fresh data directory, with a tool name on its input. *)
Lemma update_without_session_is_noop_witness :
  let w := set_stdin (StdinJson (JDict {[ "tool_name" := JStr "Edit" ]}))
             (fresh healthy) in
  snd (Presence.cmd_update w) = w /\
  fst (Presence.read_state (snd (Presence.cmd_update w))) = Ret empty_dict.
Proof.
  intros w. apply (update_without_session_is_noop w empty_dict); reflexivity.
Defined.

Section Commands.

Lemma run_of_pure {A : Type} (m : M A) (w : world) (a : A) :
  pure m -> fst (m w) = Ret a -> m w = (Ret a, w).
Proof.
  intros Hp Ha. specialize (Hp w).
  destruct (m w) as [r w']; simpl in *; subst. reflexivity.
Qed.

(** The project name of a start whose [cwd] is usable. *)
Lemma project_name_run (project : json) (w : world) :
  usable_cwd project ->
  exists name,
    (if truthy project then Presence.project_name_of project
     else Presence.get_project_name) w = (Ret name, w).
Proof.
  intros [[s ->] | ->].
  - destruct (truthy (JStr s)); eexists; reflexivity.
  - eexists; reflexivity.
Qed.

(** What follows the write in [cmd_start] leaves the state file alone. *)
Lemma cmd_start_tail_keeps_state (project_name : string) :
  keeps_state
    (pid ← Presence.get_daemon_pid;
     if truthy (from_option JInt JNull pid)
     then Presence.log DaemonAlreadyRunning
     else Presence.log (StartingDaemon project_name);;
          Presence.spawn_daemon).
Proof.
  apply bind_keeps_state.
  - apply pure_keeps_state, get_daemon_pid_pure.
  - intros pid. destruct (truthy _).
    + apply log_keeps_state.
    + apply bind_keeps_state; [apply log_keeps_state | ].
      intros _. apply spawn_daemon_keeps_state.
Qed.

(** A command over a store that takes writes. *)
Section Writable.
Variable w : world.
Hypothesis Hm : mkdir_fault (sys w) = None.
Hypothesis Hs : state_write_fault (sys w) = None.

Lemma write_state_run (state : json) :
  Presence.write_state state w = (Ret tt, set_state_file (Holds state) w).
Proof.
  unfold Presence.write_state, mbind, M_bind, check, modify.
  rewrite Hm, Hs. reflexivity.
Qed.

Lemma cmd_start_state (d : gmap string json) :
  start_input (stdin w) ->
  fst (Presence.read_state w) = Ret (JDict d) ->
  exists name,
    state_file (snd (Presence.cmd_start w))
    = Holds (JDict (started (int_of_float (clock w)) name d)).
Proof.
  intros (m & Hin & Hcwd) Hr.
  set (project := default (JStr (default "" (project_dir (sys w)))) (m !! "cwd")).
  assert (usable_cwd project) as Hproj.
  { unfold project. destruct Hcwd as [-> | (v & -> & Hv)]; [ | exact Hv].
    left. eexists. reflexivity. }
  destruct (project_name_run project w Hproj) as [name Hname].
  exists name.
  unfold Presence.cmd_start.
  rewrite (bind_run _ _ _ _ _ (Hin w eq_refl)).
  erewrite bind_run by reflexivity.
  erewrite bind_run by reflexivity.
  fold project.
  rewrite (bind_run _ _ _ _ _ Hname).
  rewrite (bind_run _ _ _ _ _ (run_of_pure _ _ _ read_state_pure Hr)).
  erewrite bind_run by reflexivity.
  erewrite bind_run by reflexivity.
  unfold started.
  destruct (truthy (default JNull (d !! "session_start"))); cbn [negb];
    do 4 (erewrite bind_run by reflexivity);
    rewrite (bind_run _ _ _ _ _ (write_state_run _));
    rewrite cmd_start_tail_keeps_state; reflexivity.
Qed.

Lemma cmd_update_state (d : gmap string json) (tool : json) :
  update_input (stdin w) tool ->
  fst (Presence.read_state w) = Ret (JDict d) -> d <> ∅ ->
  state_file (snd (Presence.cmd_update w))
  = Holds (JDict (updated (int_of_float (clock w)) tool d)).
Proof.
  intros (m & Hin & Htool) Hr Hd.
  unfold Presence.cmd_update.
  rewrite (bind_run _ _ _ _ _ (Hin w eq_refl)).
  erewrite bind_run by (simpl; rewrite Htool; reflexivity).
  rewrite (bind_run _ _ _ _ _ (run_of_pure _ _ _ read_state_pure Hr)).
  assert (truthy (JDict d) = true) as ->.
  { simpl. rewrite bool_decide_eq_false_2 by assumption. reflexivity. }
  cbn [negb].
  do 3 (erewrite bind_run by reflexivity).
  rewrite (bind_run _ _ _ _ _ (write_state_run _)).
  rewrite log_keeps_state. reflexivity.
Qed.

End Writable.

(** The commands never change the platform. *)
Lemma run_process_sys (script : M Presence.run) (w : world) :
  preserves sys script -> sys (snd (run_process script w)) = sys w.
Proof.
  intros Hp. specialize (Hp w). unfold run_process, run_atexit.
  assert (forall w', sys (snd (Presence.remove_pid w')) = sys w') as Hrm.
  { intros w'.
    unfold Presence.remove_pid, Presence.unlink_pid, try_except, mbind,
      M_bind, ask, check, modify, raise.
    destruct (pid_file w'); simpl; try reflexivity;
      destruct (pid_unlink_fault (sys w')) as [x | ]; simpl; try reflexivity;
      destruct (is_OSError x); reflexivity. }
  destruct (script w) as [[[ | ] | e] w']; simpl in *; try assumption;
    try (destruct e); simpl;
    destruct (atexit (proc w')); rewrite ?Hrm; assumption.
Qed.

End Commands.

(** ** Parts of the world a computation leaves alone *)

Create HintDb frame.

Section Frames.
Context {X : Type} (f : world -> X).

Lemma bind_preserves {A B : Type} (m : M A) (k : A -> M B) :
  preserves f m -> (forall a, preserves f (k a)) -> preserves f (m ≫= k).
Proof.
  intros Hm Hk w. specialize (Hm w). unfold mbind, M_bind.
  destruct (m w) as [[a | e] w']; simpl in *; [ | assumption].
  rewrite Hk. assumption.
Qed.

Lemma try_except_preserves {A : Type}
    (body : M A) (clause : exn -> bool) (handler : exn -> M A) :
  preserves f body -> (forall e, preserves f (handler e)) ->
  preserves f (try_except body clause handler).
Proof.
  intros Hb Hh w. specialize (Hb w). unfold try_except.
  destruct (body w) as [[a | e] w']; simpl in *; [assumption | ].
  destruct (clause e); simpl; [ | assumption].
  rewrite Hh. assumption.
Qed.

Lemma pure_preserves {A : Type} (m : M A) : pure m -> preserves f m.
Proof. intros Hm w. rewrite Hm. reflexivity. Qed.

Lemma ret_preserves {A : Type} (a : A) : preserves f (mret a : M A).
Proof. intros w. reflexivity. Qed.

Lemma raise_preserves {A : Type} (e : exn) : preserves f (raise e : M A).
Proof. intros w. reflexivity. Qed.

Lemma modify_preserves (g : world -> world) :
  (forall w, f (g w) = f w) -> preserves f (modify g).
Proof. intros Hg w. apply Hg. Qed.

End Frames.

Lemma check_pure (fault : platform -> option exn) : pure (check fault).
Proof. intros w. unfold check. destruct (fault (sys w)); reflexivity. Qed.

Lemma ask_pure {A : Type} (g : world -> A) : pure (ask g).
Proof. intros w. reflexivity. Qed.

Lemma project_name_of_pure (project : json) :
  pure (Presence.project_name_of project).
Proof. intros w. destruct project; reflexivity. Qed.

#[local] Hint Resolve check_pure ask_pure dict_get_pure dict_set_pure
  read_hook_input_pure read_state_pure get_daemon_pid_pure
  project_name_of_pure : frame.

(** Splits a computation along its binds, handlers and branches, and closes
    the leaves that only consult the world. *)
Ltac frame :=
  repeat first
    [ solve [auto with frame]
    | apply pure_preserves; solve [auto with frame]
    | apply ret_preserves
    | apply raise_preserves
    | apply bind_preserves; [ | intros ? ]
    | apply try_except_preserves; [ | intros ? ]
    | apply modify_preserves; intros ?; reflexivity
    | match goal with
      | |- preserves _ (if ?b then _ else _) => destruct b
      | |- preserves _ (match ?x with _ => _ end) => destruct x
      end ].

Section Platform.

Lemma log_sys (m : log_msg) : preserves sys (Presence.log m).
Proof. unfold Presence.log, emit. frame. Qed.

Lemma write_state_sys (state : json) : preserves sys (Presence.write_state state).
Proof. unfold Presence.write_state. frame. Qed.

Hint Resolve log_sys write_state_sys : frame.

Lemma cmd_start_sys : preserves sys Presence.cmd_start.
Proof.
  unfold Presence.cmd_start, Presence.spawn_daemon, Presence.get_project_name,
    time_time, emit.
  frame.
Qed.

Lemma cmd_update_sys : preserves sys Presence.cmd_update.
Proof. unfold Presence.cmd_update, time_time. frame. Qed.

Hint Resolve cmd_start_sys cmd_update_sys : frame.

Lemma invoke_start_sys (t : Q) (i : stdin_state) (w : world) :
  sys (invoke (start_at t i) w) = sys w.
Proof.
  unfold invoke. rewrite run_process_sys; [reflexivity | ].
  simpl. frame.
Qed.

Lemma invoke_update_sys (t : Q) (i : stdin_state) (w : world) :
  sys (invoke (update_at t i) w) = sys w.
Proof.
  unfold invoke. rewrite run_process_sys; [reflexivity | ].
  simpl. frame.
Qed.

End Platform.

(** ** Sequences of commands *)

Section Sessions.

Lemma invoke_start_state (t : Q) (i : stdin_state) (w : world) :
  state_file (invoke (start_at t i) w)
  = state_file (snd (Presence.cmd_start (set_stdin i (set_clock t w)))).
Proof.
  unfold invoke. rewrite run_process_state. simpl.
  unfold mbind, M_bind.
  destruct (Presence.cmd_start _) as [[[] | e] w']; reflexivity.
Qed.

Lemma invoke_update_state (t : Q) (i : stdin_state) (w : world) :
  state_file (invoke (update_at t i) w)
  = state_file (snd (Presence.cmd_update (set_stdin i (set_clock t w)))).
Proof.
  unfold invoke. rewrite run_process_state. simpl.
  unfold mbind, M_bind.
  destruct (Presence.cmd_update _) as [[[] | e] w']; reflexivity.
Qed.

Lemma first_start (t : Q) (i : stdin_state) (w : world) :
  writable w -> start_input i ->
  fst (Presence.read_state w) = Ret empty_dict ->
  session_since (int_of_float t) (invoke (start_at t i) w).
Proof.
  intros [Hm Hs] Hi Hr.
  destruct (cmd_start_state (set_stdin i (set_clock t w)) Hm Hs ∅ Hi)
    as [name Hstate].
  { rewrite (read_state_same_file _ w) by reflexivity. exact Hr. }
  unfold session_since. rewrite invoke_start_state, Hstate.
  eexists; split; [reflexivity | ].
  unfold started. rewrite lookup_empty. simpl.
  rewrite !lookup_insert_ne by discriminate.
  apply lookup_insert_eq.
Qed.

Lemma later_start (t0 : Z) (t : Q) (i : stdin_state) (w : world) :
  writable w -> start_input i -> t0 <> 0 ->
  session_since t0 w -> session_since t0 (invoke (start_at t i) w).
Proof.
  intros [Hm Hs] Hi Ht0 (d & Hd & Hstart).
  destruct (cmd_start_state (set_stdin i (set_clock t w)) Hm Hs d Hi)
    as [name Hstate].
  { rewrite (read_state_holds _ (JDict d)) by exact Hd. reflexivity. }
  unfold session_since. rewrite invoke_start_state, Hstate.
  eexists; split; [reflexivity | ].
  unfold started. rewrite Hstart. simpl.
  destruct (Z.eqb_spec t0 0) as [ | _]; [contradiction | ]. simpl.
  rewrite !lookup_insert_ne by discriminate. assumption.
Qed.

Lemma an_update (t0 : Z) (t : Q) (i : stdin_state) (tool : json) (w : world) :
  writable w -> update_input i tool -> session_since t0 w ->
  exists d, state_file (invoke (update_at t i) w) = Holds (JDict d) /\
            d !! "tool" = Some tool /\
            d !! "session_start" = Some (JInt t0).
Proof.
  intros [Hm Hs] Hi (d & Hd & Hstart).
  rewrite invoke_update_state.
  rewrite (cmd_update_state (set_stdin i (set_clock t w)) Hm Hs d tool Hi).
  - eexists; split; [reflexivity | ]. unfold updated. split.
    + rewrite lookup_insert_ne by discriminate. apply lookup_insert_eq.
    + rewrite !lookup_insert_ne by discriminate. assumption.
  - rewrite (read_state_holds _ (JDict d)) by exact Hd. reflexivity.
  - intros ->. rewrite lookup_empty in Hstart. discriminate.
Qed.

Lemma starts_keep_session (t0 : Z) (starts : list (Q * stdin_state)) :
  t0 <> 0 -> Forall (fun c => start_input (snd c)) starts ->
  forall w, writable w -> session_since t0 w ->
    let w' := invoke_all (map (fun c => start_at (fst c) (snd c)) starts) w in
    writable w' /\ session_since t0 w'.
Proof.
  intros Ht0 Hall. induction Hall as [ | [t i] starts Hi _ IH]; intros w Hw Hsess.
  - split; assumption.
  - simpl. apply IH.
    + unfold writable. rewrite invoke_start_sys. assumption.
    + apply later_start; assumption.
Qed.

Lemma updates_keep_session (t0 : Z) (updates : list (Q * stdin_state)) :
  Forall (fun c => exists tool, update_input (snd c) tool) updates ->
  forall w, writable w -> session_since t0 w ->
    let w' := invoke_all (map (fun c => update_at (fst c) (snd c)) updates) w in
    writable w' /\ session_since t0 w'.
Proof.
  intros Hall. induction Hall as [ | [t i] updates [tool Hi] _ IH];
    intros w Hw Hsess.
  - split; assumption.
  - simpl. apply IH.
    + unfold writable. rewrite invoke_update_sys. assumption.
    + destruct (an_update t0 t i tool w Hw Hi Hsess) as (d & Hd & _ & Hstart).
      exists d. auto.
Qed.

End Sessions.

(** C5: after one or more [start] commands followed by one or more [update]
    commands, run from an empty state on a store that takes writes, with
    hook inputs that are empty or JSON objects (a [cwd], when given, being a
    string) and a first start that is not in the very first second of the
    epoch, the state file holds a record whose [tool] is the tool name of
    the last update and whose [session_start] is the second of the first
    start: no later start overwrote it. *)
Theorem start_then_update_session
    (w : world) (t0 : Q) (i0 : stdin_state) (starts updates : list (Q * stdin_state))
    (tn : Q) (i_n : stdin_state) (tool : json) :
  fst (Presence.read_state w) = Ret empty_dict ->
  mkdir_fault (sys w) = None -> state_write_fault (sys w) = None ->
  int_of_float t0 <> 0 ->
  start_input i0 ->
  Forall (fun c => start_input (snd c)) starts ->
  Forall (fun c => exists tool, update_input (snd c) tool) updates ->
  update_input i_n tool ->
  exists d,
    state_file
      (invoke_all
         (start_at t0 i0
            :: map (fun c => start_at (fst c) (snd c)) starts
            ++ map (fun c => update_at (fst c) (snd c)) updates
            ++ [update_at tn i_n]) w)
    = Holds (JDict d) /\
    d !! "tool" = Some tool /\
    d !! "session_start" = Some (JInt (int_of_float t0)).
Proof.
  intros Hr Hm Hs Ht0 Hi0 Hstarts Hupdates Hin.
  assert (writable w) as Hw by (split; assumption).
  unfold invoke_all. simpl. rewrite !fold_left_app. simpl.
  pose proof (first_start t0 i0 w Hw Hi0 Hr) as H1.
  assert (writable (invoke (start_at t0 i0) w)) as Hw1.
  { unfold writable. rewrite invoke_start_sys. assumption. }
  destruct (starts_keep_session _ starts Ht0 Hstarts _ Hw1 H1) as [Hw2 H2].
  destruct (updates_keep_session _ updates Hupdates _ Hw2 H2) as [Hw3 H3].
  apply (an_update _ tn i_n tool _ Hw3 Hin H3).
Qed.

(** Two starts, the second with nothing on its input, then a read and an
    edit, on a fresh data directory. *)
Lemma start_then_update_session_witness :
  exists d,
    state_file
      (invoke_all
         [ start_at 1700000000 (StdinJson (JDict {[ "cwd" := JStr "/home/u/myproj" ]}));
           start_at 1700000005 StdinBlank;
           update_at 1700000010 (StdinJson (JDict {[ "tool_name" := JStr "Read" ]}));
           update_at 1700000020 (StdinJson (JDict {[ "tool_name" := JStr "Edit" ]})) ]
         (fresh healthy))
    = Holds (JDict d) /\
    d !! "tool" = Some (JStr "Edit") /\
    d !! "session_start" = Some (JInt 1700000000).
Proof.
  apply (start_then_update_session (fresh healthy)
           1700000000 (StdinJson (JDict {[ "cwd" := JStr "/home/u/myproj" ]}))
           [ (1700000005%Q, StdinBlank) ]
           [ (1700000010%Q, StdinJson (JDict {[ "tool_name" := JStr "Read" ]})) ]
           1700000020 (StdinJson (JDict {[ "tool_name" := JStr "Edit" ]}))
           (JStr "Edit")).
  - reflexivity.
  - reflexivity.
  - reflexivity.
  - vm_compute. discriminate.
  - eexists. split; [apply reads_json | ]. right. eexists.
    split; [reflexivity | ]. left. eexists. reflexivity.
  - constructor; [ | constructor].
    exists ∅. split; [apply reads_nothing; auto | ]. left. reflexivity.
  - constructor; [ | constructor].
    exists (JStr "Read"). eexists. split; [apply reads_json | reflexivity].
  - eexists. split; [apply reads_json | reflexivity].
Defined.

(** ** The statusline's merge *)

Section Merge.

Lemma bind_pure_ind {A B : Type} (P : world -> Prop)
    (m : M A) (k : A -> M B) (w : world) :
  pure m -> P w -> (forall a, fst (m w) = Ret a -> P (snd (k a w))) ->
  P (snd ((m ≫= k) w)).
Proof.
  intros Hm Hw Hk. rewrite (bind_pure _ _ _ Hm).
  destruct (fst (m w)) as [a | e]; [apply Hk; reflexivity | exact Hw].
Qed.


Lemma py_add_pure (a b : json) : pure (py_add a b).
Proof.
  intros w. unfold py_add.
  destruct (as_num a), (as_num b); try reflexivity; destruct a, b; reflexivity.
Qed.

Lemma py_mul_pure (a : json) (k : Z) : pure (py_mul a k).
Proof.
  intros w. unfold py_mul. destruct (as_num a); [reflexivity | ].
  destruct a; reflexivity.
Qed.

Lemma py_div_pure (a : json) (k : Z) : pure (py_div a k).
Proof. intros w. unfold py_div. destruct (as_num a); reflexivity. Qed.

Lemma need_num_pure (a : json) : pure (need_num a).
Proof. intros w. unfold need_num. destruct (as_num a); reflexivity. Qed.

Lemma json_load_stdin_pure : pure Statusline.json_load_stdin.
Proof.
  intros w. unfold Statusline.json_load_stdin, stdin_read, mbind, M_bind.
  destruct (stdin w); reflexivity.
Qed.

Lemma statusline_read_state_pure : pure Statusline.read_state.
Proof. exact read_state_pure. Qed.

Lemma print_keeps_state (line : string) : preserves state_file (print line).
Proof. intros w. reflexivity. Qed.

Hint Resolve py_add_pure py_mul_pure py_div_pure need_num_pure
  json_load_stdin_pure statusline_read_state_pure print_keeps_state : frame.






End Merge.



(** ** The statusline's numbers *)

Section Formatting.





End Formatting.



(** ** The daemon's tick *)

Section Tick.

Lemma checkpoint_quiet (w : world) :
  pending (proc w) = None -> Presence.checkpoint w = (Ret tt, w).
Proof.
  intros H. unfold Presence.checkpoint. rewrite H.
  destruct (handlers (proc w)); reflexivity.
Qed.

Lemma log_run (m : log_msg) (w : world) :
  mkdir_fault (sys w) = None -> log_fault (sys w) = None ->
  Presence.log m w = (Ret tt, set_trace (trace w ++ [Logged m]) w).
Proof.
  intros Hm Hl. unfold Presence.log, mbind, M_bind, check, emit, modify.
  rewrite Hm, Hl. reflexivity.
Qed.


Lemma method_run (c : rpc_call) (w : world) :
  rpc (vars w) = true -> Presence.method c w = Presence.issue c w.
Proof.
  intros H. unfold Presence.method, mbind, M_bind, ask. rewrite H. reflexivity.
Qed.

Lemma try_except2_ret {A : Type} (body : M A)
    (c1 : exn -> bool) (h1 : exn -> M A) (c2 : exn -> bool) (h2 : exn -> M A)
    (w w' : world) (a : A) :
  body w = (Ret a, w') -> Presence.try_except2 body c1 h1 c2 h2 w = (Ret a, w').
Proof. unfold Presence.try_except2. intros ->. reflexivity. Qed.

Lemma truthy_dict (d : gmap string json) : d <> ∅ -> truthy (JDict d) = true.
Proof. intros H. simpl. rewrite bool_decide_eq_false_2 by exact H. reflexivity. Qed.

End Tick.


Section ChangeDetection.

(** A tick that starts connected, with no termination request on its way and
    a log that takes lines. *)
Section ConnectedTick.
Variable w : world.
Hypothesis Hc : connected (vars w) = true.
Hypothesis Hrpc : rpc (vars w) = true.
Hypothesis Hp : pending (proc w) = None.
Hypothesis Hm : mkdir_fault (sys w) = None.
Hypothesis Hl : log_fault (sys w) = None.




End ConnectedTick.









End ChangeDetection.





(** ** Shutdown *)

Section Shutdown.

(** The handler: a log line, the PID file removed, [SystemExit]. *)
Lemma shutdown_run (w : world) :
  mkdir_fault (sys w) = None -> log_fault (sys w) = None ->
  pid_unlink_fault (sys w) = None -> file_exists (pid_file w) = true ->
  Presence.shutdown w
  = (Raise (SystemExit 0),
     set_pid_file Absent
       (set_trace (trace w ++ [Logged ReceivedShutdownSignal]) w)).
Proof.
  intros Hm Hl Hu He. unfold Presence.shutdown.
  rewrite (bind_run _ _ _ _ _ (log_run _ w Hm Hl)).
  unfold Presence.remove_pid, Presence.unlink_pid, try_except, mbind, M_bind,
    ask, check, modify.
  cbn [pid_file sys set_trace]. rewrite He.
  change (sys (set_trace (trace w ++ [Logged ReceivedShutdownSignal]) w))
    with (sys w).
  rewrite Hu. reflexivity.
Qed.

(** A request that has arrived when a tick of the connected daemon begins
    takes the process out of the loop, whatever its history: nothing that
    follows the loop in the program runs, and the process exits 0 with no
    further call to the presence client. *)
Lemma sigterm_leaves_loop (fuel : nat) (k : Presence.run -> M Presence.run)
    (w : world) :
  connected (vars w) = true ->
  handlers (proc w) = true -> pending (proc w) = Some 0%nat ->
  mkdir_fault (sys w) = None -> log_fault (sys w) = None ->
  pid_unlink_fault (sys w) = None -> file_exists (pid_file w) = true ->
  let r := run_process (Presence.loop (S fuel) ≫= k) w in
  fst r = Some 0 /\
  pid_file (snd r) = Absent /\
  trace (snd r) = (trace w ++ [Logged ReceivedShutdownSignal])%list.
Proof.
  intros Hc Hh Hp Hm Hl Hu He.
  assert (exists w', Presence.tick w = (Raise (SystemExit 0), w') /\
                     pid_file w' = Absent /\
                     trace w' = (trace w ++ [Logged ReceivedShutdownSignal])%list)
    as (w' & Htick & Hpid & Htrace).
  { eexists. split.
    - unfold Presence.tick, Presence.try_except2.
      erewrite bind_run by reflexivity. rewrite Hc. cbn [negb].
      unfold mbind at 1, M_bind at 1.
      unfold Presence.poll, mbind at 1, M_bind at 1, Presence.checkpoint.
      rewrite Hh, Hp.
      rewrite shutdown_run by assumption.
      reflexivity.
    - split; reflexivity. }
  cbv zeta. unfold run_process.
  rewrite (bind_raise _ _ w w' (SystemExit 0)).
  - cbn [fst snd]. unfold run_atexit.
    destruct (atexit (proc w')).
    + unfold Presence.remove_pid, Presence.unlink_pid, try_except, mbind,
        M_bind, ask, raise.
      rewrite Hpid. cbn. auto.
    + auto.
  - cbn [Presence.loop]. apply bind_raise. exact Htick.
Qed.

End Shutdown.

(** *** The cleanup is out of reach *)

Section Steady.

Lemma steady_ret {A : Type} (ok : A -> Prop) (a : A) :
  ok a -> steady ok (mret a).
Proof. intros Ha w Hw. auto. Qed.

Lemma steady_raise {A : Type} (ok : A -> Prop) (e : exn) :
  e <> KeyboardInterrupt -> steady ok (raise e).
Proof. intros He w Hw. auto. Qed.

Lemma steady_bind {A B : Type} (okA : A -> Prop) (okB : B -> Prop)
    (m : M A) (k : A -> M B) :
  steady okA m -> (forall a, okA a -> steady okB (k a)) -> steady okB (m ≫= k).
Proof.
  intros Hm Hk w Hw. destruct (Hm w Hw) as (Hq & Hc & Hr).
  unfold mbind, M_bind. destruct (m w) as [[a | e] w']; simpl in *.
  - destruct (Hk a Hr w' Hq) as (Hq' & Hc' & Hr').
    rewrite Hc' , Hc. auto.
  - auto.
Qed.

Lemma steady_weaken {A : Type} (ok ok' : A -> Prop) (m : M A) :
  (forall a, ok a -> ok' a) -> steady ok m -> steady ok' m.
Proof.
  intros Himp Hm w Hw. destruct (Hm w Hw) as (Hq & Hc & Hr).
  split; [exact Hq | ]. split; [exact Hc | ].
  destruct (fst (m w)); auto.
Qed.

Lemma steady_try_except {A : Type} (ok : A -> Prop)
    (body : M A) (clause : exn -> bool) (handler : exn -> M A) :
  steady ok body ->
  (forall e, e <> KeyboardInterrupt -> steady ok (handler e)) ->
  steady ok (try_except body clause handler).
Proof.
  intros Hb Hh w Hw. destruct (Hb w Hw) as (Hq & Hc & Hr).
  unfold try_except. destruct (body w) as [[a | e] w']; simpl in *; [auto | ].
  destruct (clause e); simpl; [ | auto].
  destruct (Hh e Hr w' Hq) as (Hq' & Hc' & Hr').
  rewrite Hc', Hc. auto.
Qed.

(** The [except KeyboardInterrupt] clause of the loop has nothing to catch. *)
Lemma steady_try_except2 {A : Type} (ok : A -> Prop) (body : M A)
    (h1 : exn -> M A) (c2 : exn -> bool) (h2 : exn -> M A) :
  steady ok body ->
  (forall e, e <> KeyboardInterrupt -> steady ok (h2 e)) ->
  steady ok (Presence.try_except2 body is_KeyboardInterrupt h1 c2 h2).
Proof.
  intros Hb Hh w Hw. destruct (Hb w Hw) as (Hq & Hc & Hr).
  unfold Presence.try_except2.
  destruct (body w) as [[a | e] w']; simpl in *; [auto | ].
  destruct e; try contradiction; simpl;
    (destruct (c2 _); simpl; [ | auto]);
    match goal with
    | |- context [h2 ?x w'] =>
        destruct (Hh x Hr w' Hq) as (Hq' & Hc' & Hr'); rewrite Hc', Hc; auto
    end.
Qed.

Lemma steady_ask {A : Type} (ok : A -> Prop) (f : world -> A) :
  (forall w, quiet_libraries w -> ok (f w)) -> steady ok (ask f).
Proof. intros Hf w Hw. simpl. auto. Qed.

Lemma steady_check (fault : platform -> option exn) :
  (forall w, quiet_libraries w -> fault (sys w) <> Some KeyboardInterrupt) ->
  steady (fun _ => True) (check fault).
Proof.
  intros Hf w Hw. specialize (Hf w Hw). unfold check.
  destruct (fault (sys w)) as [e | ]; simpl; [ | auto].
  split; [exact Hw | ]. split; [reflexivity | congruence].
Qed.

(** A change of the world that touches neither the platform nor the events,
    and leaves the state file alone or writes a record to it. *)
Lemma steady_modify (f : world -> world) :
  (forall w, sys (f w) = sys w /\ trace (f w) = trace w /\
             (state_file (f w) = state_file w \/
              exists v, state_file (f w) = Holds v)) ->
  steady (fun _ => True) (modify f).
Proof.
  intros Hf w (H1 & H2 & H3 & H4 & H5 & H6 & H7).
  destruct (Hf w) as (Hsys & Htrace & Hfile). simpl.
  split; [ | rewrite Htrace; auto].
  unfold quiet_libraries. rewrite Hsys.
  repeat (split; [assumption | ]).
  destruct Hfile as [-> | [v ->]]; [assumption | discriminate].
Qed.

Lemma closes_snoc (t : list event) (e : event) :
  e <> Rpc RpcClose -> closes (t ++ [e]) = closes t.
Proof.
  intros He. unfold closes. rewrite List.filter_app, List.length_app.
  destruct e as [ | [ | | | | ] | | | ]; simpl; try lia. contradiction.
Qed.

Lemma steady_emit (e : event) :
  e <> Rpc RpcClose -> steady (fun _ => True) (emit e).
Proof.
  intros He w Hw. simpl. split; [exact Hw | ].
  split; [apply closes_snoc, He | exact I].
Qed.

Lemma steady_issue (c : rpc_call) :
  c <> RpcClose -> steady (fun _ => True) (Presence.issue c).
Proof.
  intros Hc w Hw. pose proof Hw as (_ & _ & _ & _ & _ & Hrpc & _).
  unfold Presence.issue. specialize (Hrpc (Presence.rpc_calls (trace w))).
  assert (Rpc c <> Rpc RpcClose) as He by congruence.
  destruct (rpc_fault (sys w) _) as [e | ]; simpl;
    (split; [exact Hw | ]); (split; [apply closes_snoc, He | ]);
    [congruence | exact I].
Qed.

End Steady.

Create HintDb steady.

#[local] Hint Resolve steady_ret steady_emit steady_issue : steady.

(** Splits a computation of the daemon along its binds, handlers and
    branches. *)
Ltac steady :=
  repeat first
    [ solve [auto with steady]
    | apply steady_ret; exact I
    | apply steady_raise; discriminate
    | apply (steady_bind (fun _ => True)); [ | intros ? _ ]
    | apply steady_try_except; [ | intros ? ? ]
    | apply steady_check;
      intros ? (? & ? & ? & ? & ? & ? & ?); assumption
    | apply steady_modify; intros ?; simpl; eauto
    | apply steady_emit; discriminate
    | apply steady_issue; discriminate
    | apply steady_ask; intros; exact I
    | match goal with
      | |- steady _ (if ?b then _ else _) => destruct b
      | |- steady _ (match ?x with _ => _ end) => destruct x
      end ].

Section DaemonSteady.

Lemma log_steady (m : log_msg) : steady (fun _ => True) (Presence.log m).
Proof. unfold Presence.log. steady. Qed.

Lemma read_state_steady : steady (fun _ => True) Presence.read_state.
Proof.
  unfold Presence.read_state.
  apply (steady_bind (fun f => f <> Unreadable KeyboardInterrupt)).
  - apply steady_ask. intros w (_ & _ & _ & _ & _ & _ & H). exact H.
  - intros f Hf. destruct (file_exists f); [ | steady].
    apply steady_try_except; [ | steady].
    unfold load. destruct f as [ | e | | v]; steady.
    apply steady_raise. congruence.
Qed.

Lemma write_state_steady (state : json) :
  steady (fun _ => True) (Presence.write_state state).
Proof. unfold Presence.write_state. steady. Qed.

Lemma remove_pid_steady : steady (fun _ => True) Presence.remove_pid.
Proof. unfold Presence.remove_pid, Presence.unlink_pid. steady. Qed.

Lemma write_pid_steady : steady (fun _ => True) Presence.write_pid.
Proof. unfold Presence.write_pid. steady. Qed.

Hint Resolve log_steady read_state_steady write_state_steady
  remove_pid_steady write_pid_steady : steady.

Lemma shutdown_steady : steady (fun _ => True) Presence.shutdown.
Proof. unfold Presence.shutdown, sys_exit. steady. Qed.

Lemma checkpoint_steady : steady (fun _ => True) Presence.checkpoint.
Proof.
  intros w Hw. unfold Presence.checkpoint. cbv zeta.
  destruct (handlers (proc w)); [ | simpl; auto].
  destruct (pending (proc w)) as [[ | k] | ]; try (simpl; auto).
  apply (shutdown_steady (set_proc (Process true (atexit (proc w)) None) w)).
  exact Hw.
Qed.

Lemma time_sleep_steady (seconds : Z) : steady (fun _ => True) (time_sleep seconds).
Proof. unfold time_sleep. steady. Qed.

Hint Resolve shutdown_steady checkpoint_steady time_sleep_steady : steady.

Lemma connect_steady : steady (fun _ => True) Presence.connect.
Proof.
  unfold Presence.connect, Presence.set_rpc, Presence.set_connected.
  steady.
Qed.

Lemma idle_clear_steady : steady (fun _ => True) Presence.idle_clear.
Proof.
  unfold Presence.idle_clear, Presence.set_last_sent.
  steady.
Qed.

Lemma publish_steady (state : json) :
  steady (fun _ => True) (Presence.publish state).
Proof.
  unfold Presence.publish, Presence.tool_display, Presence.set_last_sent,
    Presence.set_connected, Presence.set_rpc, time_time, dict_get.
  steady.
Qed.

Hint Resolve connect_steady idle_clear_steady publish_steady : steady.

Lemma poll_steady : steady (fun _ => True) Presence.poll.
Proof. unfold Presence.poll, float_sub, time_time, dict_get. steady. Qed.

Hint Resolve poll_steady : steady.

(** A tick never ends the loop. *)
Lemma tick_steady : steady (fun f => f = Presence.Next) Presence.tick.
Proof.
  unfold Presence.tick.
  apply steady_try_except2.
  - apply (steady_bind (fun _ => True)); [steady | intros v _].
    apply (steady_bind (fun _ => True)); [ | intros ? _; apply steady_ret; reflexivity].
    destruct (negb (connected v)); [ | steady].
    apply (steady_bind (fun _ => True)); [ | intros [ | ] _; steady].
    steady.
  - intros e He.
    do 4 (apply (steady_bind (fun _ => True)); [steady | intros ? _]).
    apply steady_ret. reflexivity.
Qed.

(** So the loop is only ever left by an exception. *)
Lemma loop_steady (fuel : nat) :
  steady (fun r => r = Presence.Running) (Presence.loop fuel).
Proof.
  induction fuel as [ | fuel IH]; simpl.
  - apply steady_ret. reflexivity.
  - apply (steady_bind (fun f => f = Presence.Next)); [apply tick_steady | ].
    intros f ->. exact IH.
Qed.

(** With SIGINT handled by [shutdown], nothing raises [KeyboardInterrupt]
    in the loop, and [run_daemon] never reaches the cleanup that follows it:
    whatever happens to the daemon, and whenever a termination request
    arrives, it does not call [rpc.close()]. *)
Lemma run_daemon_never_closes (fuel : nat) (w : world) :
  quiet_libraries w ->
  closes (trace (snd (Presence.run_daemon fuel w))) = closes (trace w) /\
  fst (Presence.run_daemon fuel w) <> Ret Presence.Finished.
Proof.
  intros Hw.
  assert (steady (fun r => r = Presence.Running) (Presence.run_daemon fuel))
    as Hrun.
  { unfold Presence.run_daemon.
    do 5 (apply (steady_bind (fun _ => True)); [steady | intros ? _]).
    apply (steady_bind (fun r => r = Presence.Running)); [apply loop_steady | ].
    intros r ->. apply steady_ret. reflexivity. }
  destruct (Hrun w Hw) as (_ & Hc & Hr).
  split; [exact Hc | ].
  destruct (fst (Presence.run_daemon fuel w)) as [r | e];
    [subst; discriminate | discriminate].
Qed.

End DaemonSteady.

Section Swallowed.

(** With no session and no request on its way, the connected daemon sleeps
    a second and goes on, for as long as it is let. *)
Lemma quiet_tick (w : world) :
  connected (vars w) = true -> pending (proc w) = None ->
  state_file w = Holds empty_dict ->
  Presence.tick w = (Ret Presence.Next, set_clock (clock w + 1) w).
Proof.
  intros Hc Hp Hfile.
  unfold Presence.tick. apply try_except2_ret.
  erewrite bind_run by reflexivity. rewrite Hc. cbn [negb].
  erewrite bind_run; [reflexivity | ].
  unfold Presence.poll.
  rewrite (bind_run _ _ _ _ _ (checkpoint_quiet w Hp)).
  rewrite (bind_run _ _ _ _ _ (read_state_holds w _ Hfile)).
  cbn [truthy empty_dict]. rewrite bool_decide_eq_true_2 by reflexivity.
  cbn [negb].
  rewrite (bind_run _ _ _ _ _ (checkpoint_quiet w Hp)).
  reflexivity.
Qed.

Lemma quiet_loop (fuel : nat) (w : world) :
  connected (vars w) = true -> pending (proc w) = None ->
  state_file w = Holds empty_dict ->
  exists t, Presence.loop fuel w = (Ret Presence.Running, set_clock t w).
Proof.
  revert w. induction fuel as [ | fuel IH]; intros w Hc Hp Hfile.
  - exists (clock w). destruct w. reflexivity.
  - cbn [Presence.loop].
    rewrite (bind_run _ _ _ _ _ (quiet_tick w Hc Hp Hfile)).
    destruct (IH (set_clock (clock w + 1) w) Hc Hp Hfile) as [t Ht].
    exists t. exact Ht.
Qed.

End Swallowed.

(** C1: what the daemon does on a termination request.  The handler logs,
    removes the PID file and raises [SystemExit], which no handler of the
    loop catches: the process exits with status 0 and the cleanup after the
    loop, the only place that calls [rpc.clear()] and [rpc.close()] on
    shutdown, is not reached.  Over an active session this holds at each of
    the first twelve interruption points of the daemon, whether it is
    connecting, publishing or sleeping.  And a request that arrives while the
    idle branch is in its guarded [rpc.clear()] is swallowed by the bare
    [except]: the PID file is gone and the daemon runs on, for as many
    iterations as it is given. *)
Theorem sigterm_skips_cleanup :
  (forall k, (k < 12)%nat ->
     let r := run_process (Presence.run_daemon 5) (signalled k) in
     fst r = Some 0 /\
     pid_file (snd r) = Absent /\
     last (trace (snd r)) = Some (Logged ReceivedShutdownSignal) /\
     clears (trace (snd r)) = 0%nat /\
     closes (trace (snd r)) = 0%nat) /\
  (forall fuel, (1 <= fuel)%nat ->
     let r := run_process (Presence.run_daemon fuel) (signalled_idle 5) in
     fst r = None /\
     pid_file (snd r) = Absent /\
     In (Logged ReceivedShutdownSignal) (trace (snd r))).
Proof.
  split.
  - intros k Hk.
    do 12 (destruct k as [ | k]; [vm_compute; auto | ]).
    lia.
  - intros [ | fuel] Hfuel; [lia | ].
    cbv zeta. unfold run_process, Presence.run_daemon.
    do 5 (erewrite bind_run by reflexivity).
    cbn [Presence.loop]. rewrite bind_assoc.
    erewrite bind_run by (vm_compute; reflexivity).
    cbv beta iota.
    match goal with
    | |- context [(Presence.loop fuel ≫= ?k) ?w1] =>
        set (after := w1); set (rest := k)
    end.
    destruct (quiet_loop fuel after) as [t Ht]; [reflexivity .. | ].
    rewrite (bind_run _ rest _ _ _ Ht).
    subst rest after. cbn.
    split; [reflexivity | ]. split; [reflexivity | ].
    right; right; right; right; right; left. reflexivity.
Qed.

(** * Further properties of the scripts *)

(** ** The files of the data directory *)

(** X1: [read_state], in both scripts, never changes anything and gives the
    empty record for a state file that is missing, that holds text other than
    JSON, or whose reading fails with an [OSError]; for a file that parses it
    gives the value parsed. *)
Theorem read_state_record_or_empty (w : world) :
  snd (Presence.read_state w) = w /\
  snd (Statusline.read_state w) = w /\
  (state_file w = Absent \/ state_file w = Garbled \/
   (exists e, state_file w = Unreadable e /\ is_OSError e = true) ->
   fst (Presence.read_state w) = Ret empty_dict /\
   fst (Statusline.read_state w) = Ret empty_dict) /\
  (forall v, state_file w = Holds v ->
     fst (Presence.read_state w) = Ret v /\
     fst (Statusline.read_state w) = Ret v).
Proof.
  split; [apply read_state_pure | ].
  split; [apply statusline_read_state_pure | ].
  split.
  - intros H. change (Statusline.read_state w) with (Presence.read_state w).
    rewrite (read_state_tolerant w H). auto.
  - intros v H. change (Statusline.read_state w) with (Presence.read_state w).
    rewrite (read_state_holds w v H). auto.
Qed.

(** A state file that cannot be opened reads as the empty record, and the
    session of [refresh] as it was written. *)
Lemma read_state_record_or_empty_witness :
  fst (Presence.read_state
         (set_state_file (Unreadable PermissionError) (fresh healthy)))
  = Ret empty_dict /\
  fst (Statusline.read_state refresh) = Ret (session "Edit" 1700000010).
Proof.
  destruct (read_state_record_or_empty
              (set_state_file (Unreadable PermissionError) (fresh healthy)))
    as (_ & _ & Hempty & _).
  destruct (read_state_record_or_empty refresh) as (_ & _ & _ & Hholds).
  split.
  - apply Hempty. right; right. exists PermissionError. split; reflexivity.
  - apply (Hholds (session "Edit" 1700000010)). reflexivity.
Defined.



(** X3: [log] of presence.py has no handler.  When the data directory cannot
    be made or the log file cannot be opened, a [stop] command ends on its
    first statement with exit status 1 and has done nothing: the state is
    not cleared, the daemon is not signalled and the PID file stays; and a
    daemon that is started raises before it writes its PID file. *)
Theorem log_failure_aborts (w : world) (e : exn) (fuel : nat) :
  mkdir_fault (sys w) = Some e \/
  (mkdir_fault (sys w) = None /\ log_fault (sys w) = Some e) ->
  is_Exception e = true -> atexit (proc w) = false ->
  Presence.cmd_stop w = (Raise e, w) /\
  run_process (Presence.main 0 ["presence.py"; "stop"]) w = (Some 1, w) /\
  Presence.run_daemon fuel w = (Raise e, w) /\
  run_process (Presence.main fuel ["presence.py"; "daemon"]) w = (Some 1, w).
Proof.
  intros Hfault He Hexit.
  assert (forall m, Presence.log m w = (Raise e, w)) as Hlog.
  { intros m. unfold Presence.log, mbind, M_bind, check.
    destruct Hfault as [-> | [-> ->]]; reflexivity. }
  assert (Presence.cmd_stop w = (Raise e, w)) as Hstop.
  { unfold Presence.cmd_stop. apply bind_raise, Hlog. }
  assert (Presence.run_daemon fuel w = (Raise e, w)) as Hrun.
  { unfold Presence.run_daemon. apply bind_raise, Hlog. }
  split; [exact Hstop | ]. split; [ | split; [exact Hrun | ]].
  - unfold run_process. cbn [Presence.main String.eqb Ascii.eqb Bool.eqb].
    rewrite (bind_raise _ _ _ _ _ Hstop).
    unfold run_atexit. rewrite Hexit. destruct e; try discriminate; reflexivity.
  - unfold run_process. cbn [Presence.main String.eqb Ascii.eqb Bool.eqb].
    rewrite Hrun.
    unfold run_atexit. rewrite Hexit. destruct e; try discriminate; reflexivity.
Qed.

(** On the machine of [mute] a stop leaves the session and the PID file
    where they are, and the daemon does not start. *)
Lemma log_failure_aborts_witness :
  run_process (Presence.main 0 ["presence.py"; "stop"]) mute = (Some 1, mute) /\
  Presence.run_daemon 3 mute = (Raise PermissionError, mute).
Proof.
  destruct (log_failure_aborts mute PermissionError 3) as (_ & H2 & H3 & _);
    [right; split; reflexivity | reflexivity | reflexivity | ].
  split; assumption.
Defined.

(** X4: [remove_pid] swallows the [OSError] of a PID file that is missing
    or cannot be unlinked, and touches nothing but the PID file.  When
    unlinking works the file is gone afterwards, and removing it once more
    changes nothing. *)
Theorem remove_pid_idempotent (w : world) :
  (forall e, pid_unlink_fault (sys w) = Some e -> is_OSError e = true) ->
  fst (Presence.remove_pid w) = Ret tt /\
  (exists f, snd (Presence.remove_pid w) = set_pid_file f w) /\
  (pid_file w = Absent -> snd (Presence.remove_pid w) = w) /\
  (pid_unlink_fault (sys w) = None ->
   pid_file (snd (Presence.remove_pid w)) = Absent /\
   Presence.remove_pid (snd (Presence.remove_pid w))
   = (Ret tt, snd (Presence.remove_pid w))).
Proof.
  intros Hu.
  unfold Presence.remove_pid, Presence.unlink_pid, try_except, mbind, M_bind,
    ask, check, modify, raise.
  destruct w as [p t i sf pf tr v pr]. cbn [pid_file sys] in *.
  destruct pf as [ | x | | pid]; cbn;
    try (destruct (pid_unlink_fault p) as [e | ] eqn:E; cbn;
         [rewrite (Hu e eq_refl); cbn | ]);
    repeat split; eauto; try discriminate;
    try (eexists; reflexivity); rewrite ?E; reflexivity.
Qed.

(** On a healthy machine the stale PID file of [daemon_gone] is removed, and
    a second removal finds nothing to do. *)
Lemma remove_pid_idempotent_witness :
  fst (Presence.remove_pid daemon_gone) = Ret tt /\
  pid_file (snd (Presence.remove_pid daemon_gone)) = Absent /\
  Presence.remove_pid (snd (Presence.remove_pid daemon_gone))
  = (Ret tt, snd (Presence.remove_pid daemon_gone)).
Proof.
  assert (forall e, pid_unlink_fault (sys daemon_gone) = Some e ->
                    is_OSError e = true) as Hu.
  { intros e H. vm_compute in H. discriminate H. }
  destruct (remove_pid_idempotent daemon_gone Hu) as (H1 & _ & _ & H4).
  split; [exact H1 | ]. apply H4. reflexivity.
Defined.

(** X5: the singleton guard round trip.  Once [write_pid] has succeeded,
    [get_daemon_pid] reports the process itself as the running daemon,
    provided the platform's probe finds it alive; and once [remove_pid] has
    unlinked the file, [get_daemon_pid] reports no daemon, whatever the
    probe says. *)
Theorem write_pid_then_get_daemon_pid (w : world) :
  mkdir_fault (sys w) = None -> pid_write_fault (sys w) = None ->
  (verified_alive (sys w) (getpid (sys w)) ->
   fst ((Presence.write_pid;; Presence.get_daemon_pid) w)
   = Ret (Some (getpid (sys w)))) /\
  (pid_unlink_fault (sys w) = None ->
   fst ((Presence.write_pid;; Presence.remove_pid;; Presence.get_daemon_pid) w)
   = Ret None).
Proof.
  intros Hm Hp.
  assert (Presence.write_pid w
          = (Ret tt, set_pid_file (Holds (getpid (sys w))) w)) as Hwrite.
  { unfold Presence.write_pid, mbind, M_bind, check, ask, modify.
    rewrite Hm, Hp. reflexivity. }
  split.
  - intros Halive. rewrite (bind_run _ _ _ _ _ Hwrite).
    unfold Presence.get_daemon_pid, try_except, mbind, M_bind, ask, load,
      Presence.probe.
    cbn. unfold verified_alive in Halive.
    destruct (win32 (sys w)); rewrite Halive; reflexivity.
  - intros Hu. rewrite (bind_run _ _ _ _ _ Hwrite).
    unfold Presence.remove_pid, Presence.unlink_pid, Presence.get_daemon_pid,
      try_except, mbind, M_bind, ask, check, modify.
    cbn. rewrite Hu. reflexivity.
Qed.

(** A daemon of process id 4242 on the machine of [daemon_up], where the
    probe finds that process alive. *)
Lemma write_pid_then_get_daemon_pid_witness :
  fst ((Presence.write_pid;; Presence.get_daemon_pid)
         (set_pid_file Absent daemon_up)) = Ret (Some 4242) /\
  fst ((Presence.write_pid;; Presence.remove_pid;; Presence.get_daemon_pid)
         (set_pid_file Absent daemon_up)) = Ret None.
Proof.
  destruct (write_pid_then_get_daemon_pid (set_pid_file Absent daemon_up))
    as [H1 H2]; [reflexivity | reflexivity | ].
  split; [apply H1; reflexivity | apply H2; reflexivity].
Defined.

(** X6: [read_hook_input] consumes nothing but the standard input.  It gives
    the empty record when the input is a terminal, is blank, is not JSON, or
    fails to be read with an [OSError]; otherwise it gives the value parsed,
    of whatever type. *)
Theorem read_hook_input_total (w : world) :
  snd (Presence.read_hook_input w) = w /\
  (stdin w = Tty \/ stdin w = StdinBlank \/ stdin w = StdinGarbled \/
   (exists e, stdin w = StdinFails e /\ is_OSError e = true) ->
   fst (Presence.read_hook_input w) = Ret empty_dict) /\
  (forall v, stdin w = StdinJson v -> fst (Presence.read_hook_input w) = Ret v).
Proof.
  split; [apply read_hook_input_pure | ]. split.
  - intros [H | [H | [H | (e & H & He)]]].
    + rewrite (reads_nothing Tty) by auto. reflexivity.
    + rewrite (reads_nothing StdinBlank) by auto. reflexivity.
    + rewrite (reads_nothing StdinGarbled) by auto. reflexivity.
    + unfold Presence.read_hook_input, try_except, mbind, M_bind, stdin_isatty,
        stdin_read, ask.
      rewrite H. simpl. rewrite H. simpl. rewrite He, orb_true_r. reflexivity.
  - intros v H. rewrite (read_hook_input_json w v H). reflexivity.
Qed.

(** A hook that sends a JSON list, and one whose pipe breaks. *)
Lemma read_hook_input_total_witness :
  fst (Presence.read_hook_input
         (set_stdin (StdinJson (JList [JInt 1])) (fresh healthy)))
  = Ret (JList [JInt 1]) /\
  fst (Presence.read_hook_input (set_stdin (StdinFails OSError) (fresh healthy)))
  = Ret empty_dict.
Proof.
  destruct (read_hook_input_total
              (set_stdin (StdinJson (JList [JInt 1])) (fresh healthy)))
    as (_ & _ & Hjson).
  destruct (read_hook_input_total (set_stdin (StdinFails OSError) (fresh healthy)))
    as (_ & Hempty & _).
  split.
  - apply Hjson. reflexivity.
  - apply Hempty. right; right; right. exists OSError. split; reflexivity.
Defined.

(** X7: a hook input that is JSON but not an object is not tolerated: the
    first [hook_input.get] raises [AttributeError], and both [start] and
    [update] end with exit status 1 before they have read or written
    anything. *)
Theorem non_object_input_fails (w : world) (v : json) :
  stdin w = StdinJson v -> (forall m, v <> JDict m) ->
  atexit (proc w) = false ->
  run_process (Presence.main 0 ["presence.py"; "start"]) w = (Some 1, w) /\
  run_process (Presence.main 0 ["presence.py"; "update"]) w = (Some 1, w).
Proof.
  intros Hin Hv Hexit.
  assert (forall key fallback,
            dict_get v key fallback w = (Raise AttributeError, w)) as Hget.
  { intros key fallback. destruct v; try reflexivity.
    exfalso. eapply Hv. reflexivity. }
  assert (Presence.cmd_start w = (Raise AttributeError, w)) as Hstart.
  { unfold Presence.cmd_start.
    rewrite (bind_run _ _ _ _ _ (read_hook_input_json w v Hin)).
    erewrite bind_run by reflexivity.
    apply bind_raise, Hget. }
  assert (Presence.cmd_update w = (Raise AttributeError, w)) as Hupdate.
  { unfold Presence.cmd_update.
    rewrite (bind_run _ _ _ _ _ (read_hook_input_json w v Hin)).
    apply bind_raise, Hget. }
  unfold run_process. cbn [Presence.main String.eqb Ascii.eqb Bool.eqb].
  rewrite (bind_raise _ _ _ _ _ Hstart), (bind_raise _ _ _ _ _ Hupdate).
  unfold run_atexit. rewrite Hexit. auto.
Qed.

(** An update whose input is a JSON string, over an active session. *)
Lemma non_object_input_fails_witness :
  let w := set_stdin (StdinJson (JStr "Edit")) refresh in
  run_process (Presence.main 0 ["presence.py"; "start"]) w = (Some 1, w) /\
  run_process (Presence.main 0 ["presence.py"; "update"]) w = (Some 1, w).
Proof.
  intros w. apply (non_object_input_fails w (JStr "Edit")).
  - reflexivity.
  - intros m H. discriminate H.
  - reflexivity.
Defined.

(** X8: [main] without a command prints the usage line, and with a word
    that is not one of its five commands names it as unknown; either way
    the process ends with exit status 1 and has done nothing else. *)
Theorem main_rejects_other_arguments (fuel : nat) (argv : list string) (w : world) :
  atexit (proc w) = false ->
  ((length argv < 2)%nat ->
   run_process (Presence.main fuel argv) w
   = (Some 1,
      set_trace
        (trace w ++ [Printed "Usage: presence.py <start|update|stop|status|daemon>"])
        w)) /\
  (forall prog command rest,
     argv = prog :: command :: rest -> command ∉ commands ->
     run_process (Presence.main fuel argv) w
     = (Some 1,
        set_trace (trace w ++ [Printed ("Unknown command: " ++ command)]) w)).
Proof.
  intros Hexit. split.
  - intros Hlen.
    destruct argv as [ | prog [ | command rest]]; simpl in Hlen; try lia;
      unfold run_process, run_atexit; cbn [Presence.main];
      unfold print, emit, modify, sys_exit, raise, mbind, M_bind; cbn;
      rewrite Hexit; reflexivity.
  - intros prog command rest -> Hc.
    unfold commands in Hc. rewrite !not_elem_of_cons in Hc.
    destruct Hc as (H1 & H2 & H3 & H4 & H5 & _).
    unfold run_process, run_atexit. cbn [Presence.main].
    apply String.eqb_neq in H1, H2, H3, H4, H5.
    rewrite H1, H2, H3, H4, H5.
    unfold print, emit, modify, sys_exit, raise, mbind, M_bind. cbn.
    rewrite Hexit. reflexivity.
Qed.

(** A bare call and a misspelt command. *)
Lemma main_rejects_other_arguments_witness :
  fst (run_process (Presence.main 0 ["presence.py"]) (fresh healthy)) = Some 1 /\
  run_process (Presence.main 0 ["presence.py"; "stopp"]) (fresh healthy)
  = (Some 1, set_trace [Printed "Unknown command: stopp"] (fresh healthy)).
Proof.
  destruct (main_rejects_other_arguments 0 ["presence.py"] (fresh healthy))
    as [Hshort _]; [reflexivity | ].
  destruct (main_rejects_other_arguments 0 ["presence.py"; "stopp"] (fresh healthy))
    as [_ Hother]; [reflexivity | ].
  split.
  - rewrite Hshort; [reflexivity | simpl; lia].
  - apply (Hother "presence.py" "stopp" []); [reflexivity | ].
    unfold commands. rewrite !not_elem_of_cons.
    repeat split; try discriminate. apply not_elem_of_nil.
Defined.

(** ** What the commands write *)

Section CommandRuns.

(** The liveness check looks at the platform and the PID file only. *)
Lemma get_daemon_pid_same (w w' : world) :
  sys w = sys w' -> pid_file w = pid_file w' ->
  fst (Presence.get_daemon_pid w) = fst (Presence.get_daemon_pid w').
Proof.
  intros Hs Hp.
  unfold Presence.get_daemon_pid, try_except, mbind, M_bind, ask, load, raise,
    Presence.probe.
  cbv beta. rewrite <- Hp.
  destruct (pid_file w) as [ | e | | pid]; simpl; try reflexivity.
  - destruct (_ || _); reflexivity.
  - rewrite <- Hs. destruct (win32 (sys w)).
    + destruct (tasklist (sys w) pid) as [[ | ] | e]; simpl; try reflexivity.
      destruct (_ || _); reflexivity.
    + destruct (kill0 (sys w) pid) as [e | ]; simpl; try reflexivity.
      destruct (_ || _); reflexivity.
Qed.

Lemma get_daemon_pid_run (w w' : world) (r : option Z) :
  fst (Presence.get_daemon_pid w) = Ret r ->
  sys w' = sys w -> pid_file w' = pid_file w ->
  Presence.get_daemon_pid w' = (Ret r, w').
Proof.
  intros Hr Hs Hp. apply run_of_pure; [apply get_daemon_pid_pure | ].
  rewrite (get_daemon_pid_same w' w) by assumption. exact Hr.
Qed.

(** The name a start derives from its input is the name of
    [project_source]. *)
Lemma project_name_source (m : gmap string json) (w : world) :
  m !! "cwd" = None \/ (exists v, m !! "cwd" = Some v /\ usable_cwd v) ->
  let project := default (JStr (default "" (project_dir (sys w)))) (m !! "cwd") in
  (if truthy project then Presence.project_name_of project
   else Presence.get_project_name) w
  = (Ret (path_name (sys w) (project_source (sys w) m)), w).
Proof.
  unfold project_source.
  intros [-> | (v & -> & [[s ->] | Hv])]; cbn [default from_option id].
  - destruct (project_dir (sys w)) as [e | ] eqn:E; cbn [default from_option id].
    + destruct (truthy (JStr e)) eqn:T; [reflexivity | ].
      unfold Presence.get_project_name, ask. rewrite E. cbn.
      simpl in T. apply negb_false_iff, String.eqb_eq in T. subst. reflexivity.
    + cbn. unfold Presence.get_project_name, ask. rewrite E. reflexivity.
  - destruct (truthy (JStr s)); reflexivity.
  - rewrite Hv. destruct v; try reflexivity. rewrite Hv. reflexivity.
Qed.

Variable w : world.
Hypothesis Hm : mkdir_fault (sys w) = None.
Hypothesis Hs : state_write_fault (sys w) = None.
Hypothesis Hl : log_fault (sys w) = None.

(** An update over a session, step by step. *)
Lemma cmd_update_run (d : gmap string json) (tool : json) :
  update_input (stdin w) tool ->
  state_file w = Holds (JDict d) -> d <> ∅ ->
  Presence.cmd_update w
  = (Ret tt,
     set_trace (trace w ++ [Logged (UpdatedActivity tool)])
       (set_state_file
          (Holds (JDict (updated (int_of_float (clock w)) tool d))) w)).
Proof.
  intros (m & Hin & Htool) Hfile Hd.
  unfold Presence.cmd_update.
  rewrite (bind_run _ _ _ _ _ (Hin w eq_refl)).
  erewrite bind_run by (simpl; rewrite Htool; reflexivity).
  rewrite (bind_run _ _ _ _ _ (read_state_holds w _ Hfile)).
  rewrite (truthy_dict d Hd). cbn [negb].
  do 3 (erewrite bind_run by reflexivity).
  rewrite (bind_run _ _ _ _ _ (write_state_run w Hm Hs _)).
  rewrite log_run by assumption. reflexivity.
Qed.

(** A start up to its write: the record it stores, and what is left to do. *)
Lemma cmd_start_until_write (m d : gmap string json) :
  reads (stdin w) (JDict m) ->
  m !! "cwd" = None \/ (exists v, m !! "cwd" = Some v /\ usable_cwd v) ->
  fst (Presence.read_state w) = Ret (JDict d) ->
  let name := path_name (sys w) (project_source (sys w) m) in
  Presence.cmd_start w
  = (pid ← Presence.get_daemon_pid;
     if truthy (from_option JInt JNull pid)
     then Presence.log DaemonAlreadyRunning
     else Presence.log (StartingDaemon name);;
          Presence.spawn_daemon)
      (set_state_file
         (Holds (JDict (started (int_of_float (clock w)) name d))) w).
Proof.
  intros Hin Hcwd Hr name.
  unfold Presence.cmd_start.
  rewrite (bind_run _ _ _ _ _ (Hin w eq_refl)).
  erewrite bind_run by reflexivity.
  erewrite bind_run by reflexivity.
  rewrite (bind_run _ _ _ _ _ (project_name_source m w Hcwd)).
  fold name.
  rewrite (bind_run _ _ _ _ _ (run_of_pure _ _ _ read_state_pure Hr)).
  erewrite bind_run by reflexivity.
  erewrite bind_run by reflexivity.
  unfold started.
  destruct (truthy (default JNull (d !! "session_start"))); cbn [negb];
    do 4 (erewrite bind_run by reflexivity);
    rewrite (bind_run _ _ _ _ _ (write_state_run w Hm Hs _));
    reflexivity.
Qed.

(** The rest of a start: the liveness check decides whether to spawn. *)
Lemma cmd_start_tail_run (name : string) (r : option Z) (w' : world) :
  sys w' = sys w -> pid_file w' = pid_file w ->
  fst (Presence.get_daemon_pid w) = Ret r ->
  spawn_fault (sys w) = None ->
  (pid ← Presence.get_daemon_pid;
   if truthy (from_option JInt JNull pid)
   then Presence.log DaemonAlreadyRunning
   else Presence.log (StartingDaemon name);;
        Presence.spawn_daemon) w'
  = (Ret tt,
     set_trace
       (trace w' ++
        if truthy (from_option JInt JNull r) then [Logged DaemonAlreadyRunning]
        else [Logged (StartingDaemon name); SpawnedDaemon]) w').
Proof.
  intros Hsys Hpid Hr Hspawn.
  rewrite (bind_run _ _ _ _ _ (get_daemon_pid_run w w' r Hr Hsys Hpid)).
  destruct (truthy (from_option JInt JNull r)).
  - apply log_run; rewrite Hsys; assumption.
  - erewrite bind_run by (apply log_run; rewrite Hsys; assumption).
    unfold Presence.spawn_daemon, mbind, M_bind, check, emit, modify.
    cbn [sys set_trace trace]. rewrite Hsys, Hspawn. cbn.
    rewrite <- app_assoc. reflexivity.
Qed.

End CommandRuns.

(** X9: an [update] over a session, on a data directory that takes the
    write and the log line, stores the tool name it was given and the second
    of the call, leaves every other field of the record as it was, and adds
    one line to the log. *)
Theorem update_changes_tool_and_time
    (w : world) (d : gmap string json) (tool : json) :
  mkdir_fault (sys w) = None -> state_write_fault (sys w) = None ->
  log_fault (sys w) = None ->
  update_input (stdin w) tool ->
  state_file w = Holds (JDict d) -> d <> ∅ ->
  exists d',
    Presence.cmd_update w
    = (Ret tt,
       set_trace (trace w ++ [Logged (UpdatedActivity tool)])
         (set_state_file (Holds (JDict d')) w)) /\
    d' !! "tool" = Some tool /\
    d' !! "last_update" = Some (JInt (int_of_float (clock w))) /\
    (forall key, key <> "tool" -> key <> "last_update" -> d' !! key = d !! key).
Proof.
  intros Hm Hs Hl Hin Hfile Hd.
  exists (updated (int_of_float (clock w)) tool d).
  split; [apply cmd_update_run; assumption | ].
  unfold updated. split; [ | split].
  - rewrite lookup_insert_ne by discriminate. apply lookup_insert_eq.
  - apply lookup_insert_eq.
  - intros key H1 H2. rewrite !lookup_insert_ne by congruence. reflexivity.
Qed.

(** An edit reported ten seconds into the session of [refresh]: the token
    data the statusline would have merged stay in the record. *)
Lemma update_changes_tool_and_time_witness :
  let d : gmap string json :=
    {[ "session_start" := JInt 1700000000; "project" := JStr "myproj";
       "last_update" := JInt 1700000010; "tool" := JStr "Read";
       "model" := JStr "Opus" ]} in
  let w := set_stdin (StdinJson (JDict {[ "tool_name" := JStr "Edit" ]}))
             (set_clock 1700000020
                (set_state_file (Holds (JDict d)) (fresh healthy))) in
  exists d',
    Presence.cmd_update w
    = (Ret tt,
       set_trace (trace w ++ [Logged (UpdatedActivity (JStr "Edit"))])
         (set_state_file (Holds (JDict d')) w)) /\
    d' !! "tool" = Some (JStr "Edit") /\
    d' !! "last_update" = Some (JInt 1700000020) /\
    (forall key, key <> "tool" -> key <> "last_update" -> d' !! key = d !! key).
Proof.
  intros d w.
  apply (update_changes_tool_and_time w d (JStr "Edit")); try reflexivity.
  - eexists. split; [apply reads_json | reflexivity].
  - apply insert_non_empty.
Defined.

(** X10: a [start] on a store that takes writes records as [project] the
    last component of the hook's [cwd] when that is a non-empty string, else
    of [CLAUDE_PROJECT_DIR] when it is set, else of the working directory;
    it resets [tool] to the empty string, sets [last_update] to the second
    of the call, sets [session_start] to it unless the record has one that
    is truthy, and leaves every other field of the record as it was. *)
Theorem start_records_project (w : world) (m d : gmap string json) :
  mkdir_fault (sys w) = None -> state_write_fault (sys w) = None ->
  reads (stdin w) (JDict m) ->
  m !! "cwd" = None \/ (exists v, m !! "cwd" = Some v /\ usable_cwd v) ->
  fst (Presence.read_state w) = Ret (JDict d) ->
  let now := JInt (int_of_float (clock w)) in
  exists d',
    state_file (snd (Presence.cmd_start w)) = Holds (JDict d') /\
    d' !! "project"
    = Some (JStr (path_name (sys w) (project_source (sys w) m))) /\
    d' !! "tool" = Some (JStr "") /\
    d' !! "last_update" = Some now /\
    d' !! "session_start"
    = (if truthy (default JNull (d !! "session_start"))
       then d !! "session_start" else Some now) /\
    (forall key, key ∉ ["session_start"; "project"; "last_update"; "tool"] ->
       d' !! key = d !! key).
Proof.
  intros Hm Hs Hin Hcwd Hr now.
  eexists. split.
  - rewrite (cmd_start_until_write w Hm Hs m d Hin Hcwd Hr).
    rewrite cmd_start_tail_keeps_state. reflexivity.
  - unfold started. split; [ | split; [ | split; [ | split]]].
    + rewrite !lookup_insert_ne by discriminate. apply lookup_insert_eq.
    + apply lookup_insert_eq.
    + rewrite lookup_insert_ne by discriminate. apply lookup_insert_eq.
    + rewrite !lookup_insert_ne by discriminate.
      destruct (truthy _); [reflexivity | apply lookup_insert_eq].
    + intros key Hk. rewrite !not_elem_of_cons in Hk.
      destruct Hk as (H1 & H2 & H3 & H4 & _).
      rewrite !lookup_insert_ne by congruence.
      destruct (truthy _); [reflexivity | ].
      rewrite lookup_insert_ne by congruence. reflexivity.
Qed.

(** A first start from the hook's working directory, on a fresh data
    directory. *)
Lemma start_records_project_witness :
  let w := set_stdin (StdinJson (JDict {[ "cwd" := JStr "/work/site" ]}))
             (fresh healthy) in
  exists d',
    state_file (snd (Presence.cmd_start w)) = Holds (JDict d') /\
    d' !! "project" = Some (JStr "site") /\
    d' !! "tool" = Some (JStr "") /\
    d' !! "last_update" = Some (JInt 1700000000) /\
    d' !! "session_start" = Some (JInt 1700000000) /\
    (forall key, key ∉ ["session_start"; "project"; "last_update"; "tool"] ->
       d' !! key = (∅ : gmap string json) !! key).
Proof.
  intros w.
  destruct (start_records_project w {[ "cwd" := JStr "/work/site" ]} ∅)
    as (d' & H1 & H2 & H3 & H4 & H5 & H6); try reflexivity.
  - apply reads_json.
  - right. eexists. split; [reflexivity | ]. left. eexists. reflexivity.
  - exists d'. split; [exact H1 | ]. split; [rewrite H2; reflexivity | ].
    split; [exact H3 | ]. split; [exact H4 | ]. split; [exact H5 | exact H6].
Defined.

(** X11: a [start] spawns the daemon only when the liveness check reports
    none.  On a data directory that takes the write and the log lines, with
    a platform that can spawn: if [get_daemon_pid] reports a process (other
    than process 0) the command logs that the daemon is running and spawns
    nothing; if it reports none, the command logs the start and spawns
    exactly one daemon.  Either way it returns normally and leaves the PID
    file as it was. *)
Theorem start_spawns_unless_running
    (w : world) (m d : gmap string json) (r : option Z) :
  mkdir_fault (sys w) = None -> state_write_fault (sys w) = None ->
  log_fault (sys w) = None -> spawn_fault (sys w) = None ->
  reads (stdin w) (JDict m) ->
  m !! "cwd" = None \/ (exists v, m !! "cwd" = Some v /\ usable_cwd v) ->
  fst (Presence.read_state w) = Ret (JDict d) ->
  fst (Presence.get_daemon_pid w) = Ret r ->
  let name := path_name (sys w) (project_source (sys w) m) in
  let w' := snd (Presence.cmd_start w) in
  fst (Presence.cmd_start w) = Ret tt /\
  pid_file w' = pid_file w /\
  (forall pid, r = Some pid -> pid <> 0 ->
     trace w' = (trace w ++ [Logged DaemonAlreadyRunning])%list) /\
  (r = None ->
   trace w' = (trace w ++ [Logged (StartingDaemon name); SpawnedDaemon])%list).
Proof.
  intros Hm Hs Hl Hspawn Hin Hcwd Hr Hpid name w'.
  unfold w'.
  rewrite (cmd_start_until_write w Hm Hs m d Hin Hcwd Hr).
  erewrite (cmd_start_tail_run w Hm Hl) by (try reflexivity; eassumption).
  split; [reflexivity | ]. split; [reflexivity | ]. split.
  - intros pid -> Hne. cbn.
    destruct (Z.eqb_spec pid 0) as [ | _]; [contradiction | reflexivity].
  - intros ->. reflexivity.
Qed.

(** A start while the daemon of [daemon_up] runs, and one that finds the
    stale PID file of [daemon_gone]. *)
Lemma start_spawns_unless_running_witness :
  trace (snd (Presence.cmd_start daemon_up)) = [Logged DaemonAlreadyRunning] /\
  trace (snd (Presence.cmd_start daemon_gone))
  = [Logged (StartingDaemon "myproj"); SpawnedDaemon].
Proof.
  assert (reads Tty (JDict ∅)) as Hin by (apply reads_nothing; auto).
  destruct (start_spawns_unless_running daemon_up ∅ ∅ (Some 4242))
    as (_ & _ & Hup & _); try reflexivity; [exact Hin | left; reflexivity | ].
  destruct (start_spawns_unless_running daemon_gone ∅ ∅ None)
    as (_ & _ & _ & Hgone); try reflexivity; [exact Hin | left; reflexivity | ].
  split.
  - apply (Hup 4242); [reflexivity | discriminate].
  - apply Hgone. reflexivity.
Defined.

(** ** Stopping and reporting *)

Section Stop.

Lemma remove_pid_run (w : world) :
  pid_unlink_fault (sys w) = None ->
  Presence.remove_pid w = (Ret tt, set_pid_file Absent w).
Proof.
  intros Hu.
  unfold Presence.remove_pid, Presence.unlink_pid, try_except, mbind, M_bind,
    ask, check, modify, raise.
  destruct w as [p t i sf pf tr v pr]. cbn [pid_file sys] in *.
  destruct pf; cbn; rewrite ?Hu; reflexivity.
Qed.

(** The guarded request to end the daemon: sent and logged, or its failure
    logged. *)
Lemma guarded_terminate_run (w : world) (pid : Z) :
  mkdir_fault (sys w) = None -> log_fault (sys w) = None ->
  (forall e, terminate_fault (sys w) pid = Some e -> is_Exception e = true) ->
  try_except (Presence.terminate pid;; Presence.log (StoppedDaemon pid))
    is_Exception (fun e => Presence.log (FailedToStopDaemon e)) w
  = (Ret tt,
     set_trace
       (trace w ++
        match terminate_fault (sys w) pid with
        | None => [Terminated pid; Logged (StoppedDaemon pid)]
        | Some e => [Logged (FailedToStopDaemon e)]
        end) w).
Proof.
  intros Hm Hl Ht. unfold try_except.
  destruct (terminate_fault (sys w) pid) as [e | ] eqn:E.
  - assert (Presence.terminate pid w = (Raise e, w)) as Hterm.
    { unfold Presence.terminate, mbind, M_bind, check. rewrite E. reflexivity. }
    rewrite (bind_raise _ _ _ _ _ Hterm), (Ht e eq_refl).
    apply log_run; assumption.
  - assert (Presence.terminate pid w
            = (Ret tt, set_trace (trace w ++ [Terminated pid]) w)) as Hterm.
    { unfold Presence.terminate, mbind, M_bind, check. rewrite E. reflexivity. }
    rewrite (bind_run _ _ _ _ _ Hterm), log_run by assumption.
    cbn. rewrite <- app_assoc. reflexivity.
Qed.

(** A stop, step by step. *)
Lemma cmd_stop_run (w : world) (r : option Z) :
  mkdir_fault (sys w) = None -> log_fault (sys w) = None ->
  state_write_fault (sys w) = None -> pid_unlink_fault (sys w) = None ->
  fst (Presence.get_daemon_pid w) = Ret r ->
  (forall pid e, terminate_fault (sys w) pid = Some e -> is_Exception e = true) ->
  Presence.cmd_stop w
  = (Ret tt,
     set_pid_file Absent
       (set_trace
          (trace w ++ Logged StopCommandReceived :: stop_events (sys w) r)
          (set_state_file (Holds empty_dict) w))).
Proof.
  intros Hm Hl Hs Hu Hr Ht.
  unfold Presence.cmd_stop.
  rewrite (bind_run _ _ _ _ _ (log_run _ w Hm Hl)).
  erewrite bind_run by (apply write_state_run; assumption).
  erewrite bind_run
    by (apply (get_daemon_pid_run w); [exact Hr | reflexivity ..]).
  unfold stop_events.
  destruct r as [pid | ]; [destruct (truthy (JInt pid)) | ].
  - erewrite bind_run
      by (apply guarded_terminate_run; try assumption; intros e; apply Ht).
    rewrite remove_pid_run by exact Hu.
    cbn. rewrite <- app_assoc. reflexivity.
  - erewrite bind_run by reflexivity.
    rewrite remove_pid_run by exact Hu. reflexivity.
  - erewrite bind_run by reflexivity.
    rewrite remove_pid_run by exact Hu. reflexivity.
Qed.

(** With no PID file and no session, [status] has two lines to print. *)
Lemma cmd_status_nothing (w : world) :
  pid_file w = Absent -> state_file w = Holds empty_dict ->
  Presence.cmd_status w
  = (Ret tt,
     set_trace
       (trace w ++ [Printed "Daemon not running"; Printed "No active session"])
       w).
Proof.
  intros Hp Hf. unfold Presence.cmd_status.
  erewrite bind_run.
  2: { unfold Presence.get_daemon_pid, mbind, M_bind, ask. rewrite Hp.
       reflexivity. }
  rewrite (bind_run _ _ _ _ _ (read_state_holds w _ Hf)).
  cbn [from_option truthy].
  erewrite bind_run by reflexivity.
  unfold empty_dict, truthy. rewrite bool_decide_eq_true_2 by reflexivity.
  cbn. unfold print, emit, modify. cbn. rewrite <- app_assoc. reflexivity.
Qed.

End Stop.

(** X12: a [stop] on a data directory that takes the writes, where the
    liveness check returns and ending a process fails, if it does, with an
    [Exception]: the command returns normally, the state file holds the
    empty record and the PID file is gone, whatever became of the daemon.
    If the check reported no daemon nothing is signalled; if it reported one
    it is sent the termination request and the stop is logged, or the
    failure to send it is logged and goes no further. *)
Theorem stop_clears_state_and_guard (w : world) (r : option Z) :
  mkdir_fault (sys w) = None -> log_fault (sys w) = None ->
  state_write_fault (sys w) = None -> pid_unlink_fault (sys w) = None ->
  fst (Presence.get_daemon_pid w) = Ret r ->
  (forall pid e, terminate_fault (sys w) pid = Some e -> is_Exception e = true) ->
  let w' := snd (Presence.cmd_stop w) in
  fst (Presence.cmd_stop w) = Ret tt /\
  state_file w' = Holds empty_dict /\
  pid_file w' = Absent /\
  (r = None -> trace w' = (trace w ++ [Logged StopCommandReceived])%list) /\
  (forall pid, r = Some pid -> pid <> 0 ->
     terminate_fault (sys w) pid = None ->
     trace w' = (trace w ++ [Logged StopCommandReceived; Terminated pid;
                             Logged (StoppedDaemon pid)])%list) /\
  (forall pid e, r = Some pid -> pid <> 0 ->
     terminate_fault (sys w) pid = Some e ->
     trace w' = (trace w ++ [Logged StopCommandReceived;
                             Logged (FailedToStopDaemon e)])%list).
Proof.
  intros Hm Hl Hs Hu Hr Ht w'. unfold w'.
  rewrite (cmd_stop_run w r Hm Hl Hs Hu Hr Ht). cbn [fst snd].
  split; [reflexivity | ]. split; [reflexivity | ]. split; [reflexivity | ].
  split; [intros ->; reflexivity | ]. split.
  - intros pid -> Hne Hok. cbn.
    destruct (Z.eqb_spec pid 0) as [ | _]; [contradiction | ].
    cbn. rewrite Hok. reflexivity.
  - intros pid e -> Hne Hfail. cbn.
    destruct (Z.eqb_spec pid 0) as [ | _]; [contradiction | ].
    cbn. rewrite Hfail. reflexivity.
Qed.

(** A stop while the daemon of [daemon_up] runs over a session. *)
Lemma stop_clears_state_and_guard_witness :
  let w := set_state_file (Holds (session "Edit" 1700000010)) daemon_up in
  state_file (snd (Presence.cmd_stop w)) = Holds empty_dict /\
  pid_file (snd (Presence.cmd_stop w)) = Absent /\
  trace (snd (Presence.cmd_stop w))
  = [Logged StopCommandReceived; Terminated 4242; Logged (StoppedDaemon 4242)].
Proof.
  intros w.
  destruct (stop_clears_state_and_guard w (Some 4242))
    as (_ & H2 & H3 & _ & H5 & _); try reflexivity.
  - intros pid e H. discriminate H.
  - split; [exact H2 | ]. split; [exact H3 | ].
    apply (H5 4242); [reflexivity | discriminate | reflexivity].
Defined.

(** X13: [stop] followed by [status], each a process of its own: after a
    stop that could do its writes, the status command finds neither daemon
    nor session and prints exactly the two lines that say so. *)
Theorem status_after_stop
    (w : world) (r : option Z) (t0 t1 : Q) (i0 i1 : stdin_state) :
  mkdir_fault (sys w) = None -> log_fault (sys w) = None ->
  state_write_fault (sys w) = None -> pid_unlink_fault (sys w) = None ->
  fst (Presence.get_daemon_pid w) = Ret r ->
  (forall pid e, terminate_fault (sys w) pid = Some e -> is_Exception e = true) ->
  atexit (proc w) = false ->
  let w1 := invoke (stop_at t0 i0) w in
  state_file w1 = Holds empty_dict /\ pid_file w1 = Absent /\
  trace (invoke (status_at t1 i1) w1)
  = (trace w1 ++ [Printed "Daemon not running"; Printed "No active session"])%list.
Proof.
  intros Hm Hl Hs Hu Hr Ht Hexit.
  set (w0 := set_stdin i0 (set_clock t0 w)).
  assert (fst (Presence.get_daemon_pid w0) = Ret r) as Hr0.
  { rewrite (get_daemon_pid_same w0 w) by reflexivity. exact Hr. }
  assert (invoke (stop_at t0 i0) w
          = set_pid_file Absent
              (set_trace
                 (trace w ++ Logged StopCommandReceived :: stop_events (sys w) r)
                 (set_state_file (Holds empty_dict) w0))) as Hstop.
  { unfold invoke, run_process, stop_at.
    cbn [argv at_time input Presence.main String.eqb Ascii.eqb Bool.eqb].
    fold w0.
    rewrite (bind_run _ _ _ _ _ (cmd_stop_run w0 r Hm Hl Hs Hu Hr0 Ht)).
    cbn. unfold run_atexit. cbn. rewrite Hexit. reflexivity. }
  cbv zeta. rewrite Hstop.
  split; [reflexivity | ]. split; [reflexivity | ].
  unfold invoke, run_process, status_at.
  cbn [argv at_time input Presence.main String.eqb Ascii.eqb Bool.eqb].
  erewrite bind_run by (apply cmd_status_nothing; reflexivity).
  cbn. unfold run_atexit. cbn. rewrite Hexit. reflexivity.
Qed.

(** The user stops the session of [daemon_up] and asks for the status a
    minute later. *)
Lemma status_after_stop_witness :
  let w1 := invoke (stop_at 1700000100 Tty) daemon_up in
  state_file w1 = Holds empty_dict /\ pid_file w1 = Absent /\
  trace (invoke (status_at 1700000160 Tty) w1)
  = (trace w1 ++ [Printed "Daemon not running"; Printed "No active session"])%list.
Proof.
  apply (status_after_stop daemon_up (Some 4242)); try reflexivity.
  intros pid e H. discriminate H.
Defined.

Section OnlyPrints.

Lemma only_prints_pure {A : Type} (m : M A) : pure m -> only_prints m.
Proof.
  intros Hm w. exists []. rewrite Hm. simpl. rewrite app_nil_r.
  destruct w; reflexivity.
Qed.

Lemma only_prints_bind {A B : Type} (m : M A) (k : A -> M B) :
  only_prints m -> (forall a, only_prints (k a)) -> only_prints (m ≫= k).
Proof.
  intros Hm Hk w. destruct (Hm w) as [l1 H1]. unfold mbind, M_bind.
  destruct (m w) as [[a | e] w1]; simpl in *; subst.
  - destruct (Hk a (set_trace (trace w ++ map Printed l1) w)) as [l2 H2].
    exists (l1 ++ l2)%list. rewrite H2. simpl.
    rewrite map_app, app_assoc. reflexivity.
  - exists l1. reflexivity.
Qed.

Lemma only_prints_print (line : string) : only_prints (print line).
Proof. intros w. exists [line]. reflexivity. Qed.

Lemma float_sub_pure (a : Q) (b : json) : pure (float_sub a b).
Proof. intros w. unfold float_sub. destruct (number b); reflexivity. Qed.

End OnlyPrints.

(** X14: [status] is read-only.  Whatever the data directory holds and
    whatever fails, all the command does is print lines: the state file, the
    PID file and the log are as they were, no process is signalled or
    spawned. *)
Theorem status_only_prints (w : world) :
  exists lines,
    snd (Presence.cmd_status w) = set_trace (trace w ++ map Printed lines) w.
Proof.
  revert w. change (only_prints Presence.cmd_status).
  unfold Presence.cmd_status.
  apply only_prints_bind; [apply only_prints_pure, get_daemon_pid_pure | ].
  intros pid.
  apply only_prints_bind; [apply only_prints_pure, read_state_pure | ].
  intros state.
  apply only_prints_bind.
  { destruct (truthy _); apply only_prints_print. }
  intros _. destruct (truthy state); [ | apply only_prints_print].
  apply only_prints_bind; [apply only_prints_pure, ask_pure | intros p].
  apply only_prints_bind; [apply only_prints_pure, dict_get_pure | intros project].
  apply only_prints_bind; [apply only_prints_print | intros _].
  apply only_prints_bind; [apply only_prints_pure, dict_get_pure | intros tool].
  apply only_prints_bind; [apply only_prints_print | intros _].
  apply only_prints_bind;
    [apply only_prints_pure, dict_get_pure | intros last_update].
  destruct (truthy last_update); [ | apply only_prints_pure; intros ?; reflexivity].
  apply only_prints_bind; [apply only_prints_pure, ask_pure | intros now].
  apply only_prints_bind; [apply only_prints_pure, float_sub_pure | intros elapsed].
  apply only_prints_print.
Qed.



(** ** The daemon keeps going *)

Section Ensures.
Variable I : world -> Prop.

Lemma ensures_ret {A : Type} (ok : A -> Prop) (E : exn -> Prop) (a : A) :
  ok a -> ensures I ok E (mret a).
Proof. intros Ha w Hw. split; assumption. Qed.

Lemma ensures_raise {A : Type} (ok : A -> Prop) (E : exn -> Prop) (e : exn) :
  E e -> ensures I ok E (raise e).
Proof. intros He w Hw. split; assumption. Qed.

Lemma ensures_bind {A B : Type} (okA : A -> Prop) (okB : B -> Prop)
    (E : exn -> Prop) (m : M A) (k : A -> M B) :
  ensures I okA E m -> (forall a, okA a -> ensures I okB E (k a)) ->
  ensures I okB E (m ≫= k).
Proof.
  intros Hm Hk w Hw. destruct (Hm w Hw) as [Hi Hr].
  unfold mbind, M_bind. destruct (m w) as [[a | e] w']; simpl in *.
  - apply (Hk a Hr w' Hi).
  - split; assumption.
Qed.

Lemma ensures_try_except {A : Type} (ok : A -> Prop) (Eb E : exn -> Prop)
    (body : M A) (clause : exn -> bool) (handler : exn -> M A) :
  ensures I ok Eb body ->
  (forall e, Eb e -> clause e = true -> ensures I ok E (handler e)) ->
  (forall e, Eb e -> clause e = false -> E e) ->
  ensures I ok E (try_except body clause handler).
Proof.
  intros Hb Hh Hn w Hw. destruct (Hb w Hw) as [Hi Hr].
  unfold try_except. destruct (body w) as [[a | e] w']; simpl in *.
  - split; assumption.
  - destruct (clause e) eqn:Hc.
    + apply (Hh e Hr Hc w' Hi).
    + split; [assumption | apply Hn; assumption].
Qed.

Lemma ensures_try_except2 {A : Type} (ok : A -> Prop) (Eb E : exn -> Prop)
    (body : M A) (c1 : exn -> bool) (h1 : exn -> M A)
    (c2 : exn -> bool) (h2 : exn -> M A) :
  ensures I ok Eb body ->
  (forall e, Eb e -> c1 e = true -> ensures I ok E (h1 e)) ->
  (forall e, Eb e -> c1 e = false -> c2 e = true -> ensures I ok E (h2 e)) ->
  (forall e, Eb e -> c1 e = false -> c2 e = false -> E e) ->
  ensures I ok E (Presence.try_except2 body c1 h1 c2 h2).
Proof.
  intros Hb H1 H2 Hn w Hw. destruct (Hb w Hw) as [Hi Hr].
  unfold Presence.try_except2. destruct (body w) as [[a | e] w']; simpl in *.
  - split; assumption.
  - destruct (c1 e) eqn:Hc1; [apply (H1 e Hr Hc1 w' Hi) | ].
    destruct (c2 e) eqn:Hc2; [apply (H2 e Hr Hc1 Hc2 w' Hi) | ].
    split; [assumption | apply Hn; assumption].
Qed.

Lemma ensures_pure {A : Type} (ok : A -> Prop) (E : exn -> Prop) (m : M A) :
  pure m ->
  (forall w, I w -> match fst (m w) with Ret a => ok a | Raise e => E e end) ->
  ensures I ok E m.
Proof. intros Hp Hm w Hw. rewrite Hp. split; [exact Hw | apply Hm, Hw]. Qed.

Lemma ensures_modify (ok : unit -> Prop) (E : exn -> Prop) (f : world -> world) :
  (forall w, I w -> I (f w)) -> ok tt -> ensures I ok E (modify f).
Proof. intros Hf Hok w Hw. split; [apply Hf, Hw | exact Hok]. Qed.

End Ensures.

Section Calm.
Variable f : file Z.

Lemma calm_emit (E : exn -> Prop) (e : event) :
  ensures (calm f) anything E (emit e).
Proof. apply ensures_modify; [ | exact I]. intros w Hw. exact Hw. Qed.

Lemma calm_checkpoint (E : exn -> Prop) :
  ensures (calm f) anything E Presence.checkpoint.
Proof.
  intros w Hw. pose proof Hw as (Hp & _).
  rewrite (checkpoint_quiet w Hp). split; [exact Hw | exact I].
Qed.

Lemma calm_log (E : exn -> Prop) (m : log_msg) :
  ensures (calm f) anything E (Presence.log m).
Proof.
  intros w Hw. pose proof Hw as (_ & Hm & Hl & _).
  rewrite (log_run m w Hm Hl). split; [exact Hw | exact I].
Qed.

Lemma calm_time_sleep (E : exn -> Prop) (seconds : Z) :
  ensures (calm f) anything E (time_sleep seconds).
Proof. apply ensures_modify; [ | exact I]. intros w Hw. exact Hw. Qed.

Lemma calm_set_vars (E : exn -> Prop) (g : world -> locals) :
  ensures (calm f) anything E (modify (fun w => set_vars (g w) w)).
Proof. apply ensures_modify; [ | exact I]. intros w Hw. exact Hw. Qed.

Lemma calm_read_state : ensures (calm f) anything caught Presence.read_state.
Proof.
  apply ensures_pure; [apply read_state_pure | ].
  intros w (_ & _ & _ & _ & _ & Hfile & _).
  unfold Presence.read_state, mbind, M_bind, ask, try_except, load, raise.
  destruct (state_file w) as [ | e | | v]; simpl; try exact I.
  destruct (_ || _); simpl; [exact I | ]. apply Hfile. reflexivity.
Qed.

Lemma calm_write_state (state : json) :
  ensures (calm f) anything caught (Presence.write_state state).
Proof.
  intros w Hw. pose proof Hw as (Hp & Hm & Hl & Hs & Hr & Hfile & Hpid).
  unfold Presence.write_state, mbind, M_bind, check, modify. rewrite Hm.
  destruct (state_write_fault (sys w)) as [e | ] eqn:E; simpl.
  - split; [exact Hw | apply Hs; reflexivity].
  - split; [ | exact I]. clear Hp Hl Hs Hr Hfile Hpid.
    destruct Hw as (? & ? & ? & ? & ? & ? & ?). unfold calm. simpl.
    repeat (split; [assumption | ]). split; [ | assumption].
    intros e Hno. discriminate Hno.
Qed.

Lemma calm_issue (c : rpc_call) : ensures (calm f) anything caught (Presence.issue c).
Proof.
  intros w Hw. pose proof Hw as (_ & _ & _ & _ & Hr & _).
  unfold Presence.issue.
  destruct (rpc_fault (sys w) _) as [e | ] eqn:E; simpl;
    (split; [exact Hw | ]); [eapply Hr; exact E | exact I].
Qed.

Lemma calm_ask {A : Type} (E : exn -> Prop) (g : world -> A) :
  ensures (calm f) anything E (ask g).
Proof. apply ensures_pure; [apply ask_pure | intros w _; exact I]. Qed.

Lemma calm_method (c : rpc_call) : ensures (calm f) anything caught (Presence.method c).
Proof.
  unfold Presence.method.
  apply (ensures_bind _ anything); [apply calm_ask | ].
  intros v _. destruct (rpc v); [apply calm_issue | ].
  apply ensures_raise. reflexivity.
Qed.

Lemma calm_dict_get (d : json) (key : string) (fallback : json) :
  ensures (calm f) anything caught (dict_get d key fallback).
Proof.
  apply ensures_pure; [apply dict_get_pure | ].
  intros w _. destruct d; simpl; try exact I; reflexivity.
Qed.

Lemma calm_float_sub (a : Q) (b : json) :
  ensures (calm f) anything caught (float_sub a b).
Proof.
  intros w Hw. unfold float_sub.
  destruct (number b); (split; [exact Hw | ]); [exact I | reflexivity].
Qed.

Lemma calm_tool_display (tool : json) :
  ensures (calm f) anything caught (Presence.tool_display tool).
Proof.
  intros w Hw. unfold Presence.tool_display.
  destruct (Presence.label tool); (split; [exact Hw | ]); [exact I | reflexivity].
Qed.

End Calm.

Create HintDb calm.

#[local] Hint Resolve calm_emit calm_checkpoint calm_log calm_time_sleep
  calm_set_vars calm_read_state calm_write_state calm_issue calm_method
  calm_dict_get calm_float_sub calm_tool_display calm_ask : calm.

(** Splits a computation of the loop along its binds, handlers and
    branches. *)
Ltac calm :=
  repeat first
    [ solve [auto with calm]
    | apply ensures_ret; solve [exact I | reflexivity]
    | apply (ensures_bind _ anything); [ | intros ? _ ]
    | match goal with
      | |- ensures _ _ _ (if ?b then _ else _) => destruct b
      | |- ensures _ _ _ (match ?x with _ => _ end) => destruct x
      end ].

(** Handlers: what the body raises is an [Exception], what a clause lets
    through is what the body raised. *)
Ltac calm_handlers :=
  first
    [ eapply (ensures_try_except _ _ caught);
      [ | intros ? ? ? | intros ? ? ?;
          first [ assumption
                | unfold caught, is_BaseException in *; congruence ] ] ].

Section DaemonCalm.
Variable f : file Z.

Lemma calm_connect : ensures (calm f) anything caught Presence.connect.
Proof.
  unfold Presence.connect, Presence.set_rpc, Presence.set_connected. calm.
Qed.

Lemma calm_idle_clear : ensures (calm f) anything caught Presence.idle_clear.
Proof.
  unfold Presence.idle_clear, Presence.set_last_sent.
  apply (ensures_bind _ anything); [calm | intros ? _].
  apply (ensures_bind _ anything); [calm | intros ? _].
  apply (ensures_bind _ anything); [calm | intros v _].
  apply (ensures_bind _ anything); [ | intros ? _; calm].
  destruct (rpc v); [ | calm].
  calm_handlers; calm.
Qed.

Lemma calm_publish (state : json) :
  ensures (calm f) anything caught (Presence.publish state).
Proof.
  unfold Presence.publish, Presence.set_last_sent, Presence.set_connected,
    Presence.set_rpc, time_time.
  do 5 (apply (ensures_bind _ anything); [calm | intros ? _]).
  cbv zeta.
  apply (ensures_bind _ anything); [calm | intros v _].
  apply (ensures_bind _ anything); [ | intros ? _; calm].
  destruct (negb _); [ | calm].
  apply (ensures_bind _ anything); [calm | intros ? _].
  apply (ensures_bind _ anything); [calm | intros ? _].
  calm_handlers; calm.
Qed.

Lemma calm_poll : ensures (calm f) anything caught Presence.poll.
Proof.
  unfold Presence.poll, time_time.
  apply (ensures_bind _ anything); [calm | intros ? _].
  apply (ensures_bind _ anything); [calm | intros state _].
  destruct (negb (truthy state)); [calm | ].
  do 3 (apply (ensures_bind _ anything); [calm | intros ? _]).
  destruct (negb _); [apply calm_idle_clear | apply calm_publish].
Qed.

(** An iteration returns, and asks for the next one. *)
Lemma calm_tick :
  ensures (calm f) (fun r => r = Presence.Next) no_exception Presence.tick.
Proof.
  unfold Presence.tick.
  apply (ensures_try_except2 _ _ caught).
  - apply (ensures_bind _ anything); [calm | intros v _].
    apply (ensures_bind _ anything); [ | intros ? _; calm].
    destruct (negb (connected v)); [ | apply calm_poll].
    apply (ensures_bind _ anything);
      [ | intros [ | ] _; [apply calm_poll | calm]].
    calm_handlers.
    + apply (ensures_bind _ anything); [apply calm_connect | intros ? _; calm].
    + calm.
  - intros e He Hk. destruct e; discriminate.
  - intros e _ _ _. calm.
  - intros e He _ Hc. unfold caught in He. congruence.
Qed.

Lemma calm_loop (fuel : nat) :
  ensures (calm f) (fun r => r = Presence.Running) no_exception
    (Presence.loop fuel).
Proof.
  induction fuel as [ | fuel IH]; cbn [Presence.loop].
  - apply ensures_ret. reflexivity.
  - apply (ensures_bind _ (fun r => r = Presence.Next)); [apply calm_tick | ].
    intros r ->. exact IH.
Qed.

(** What [ensures] says of a computation that cannot raise. *)
Lemma ensures_returns {A : Type} (a : A) (m : M A) (w : world) :
  ensures (calm f) (fun r => r = a) no_exception m -> calm f w ->
  exists w', m w = (Ret a, w') /\ calm f w'.
Proof.
  intros Hm Hw. destruct (Hm w Hw) as [Hi Hr].
  destruct (m w) as [[r | e] w']; simpl in *; [subst | contradiction].
  exists w'. split; [reflexivity | assumption].
Qed.

End DaemonCalm.

(** X16: no [Exception] ends the daemon.  As long as no termination request
    arrives and the log takes lines, whatever the presence service, the
    state file and its writing raise, every iteration of the loop returns
    and asks for the next one, so the loop is still running after any
    number of iterations; and the PID file is not touched. *)
Theorem loop_survives_exceptions (fuel : nat) (w : world) :
  calm (pid_file w) w ->
  (exists w1, Presence.tick w = (Ret Presence.Next, w1) /\
              calm (pid_file w) w1) /\
  (exists w', Presence.loop fuel w = (Ret Presence.Running, w') /\
              pid_file w' = pid_file w /\ calm (pid_file w) w').
Proof.
  intros Hw. split.
  - apply ensures_returns; [apply calm_tick | exact Hw].
  - destruct (ensures_returns (pid_file w) Presence.Running
                (Presence.loop fuel) w (calm_loop _ fuel) Hw) as (w' & Hrun & Hw').
    exists w'. split; [exact Hrun | ]. split; [ | exact Hw'].
    destruct Hw' as (_ & _ & _ & _ & _ & _ & Hpid). exact Hpid.
Qed.

(** A daemon whose state file is not UTF-8 logs the error at every
    iteration and runs on. *)
Lemma loop_survives_exceptions_witness :
  let w := connected_daemon (Unreadable UnicodeDecodeError) 1700000011 in
  fst (Presence.tick w) = Ret Presence.Next /\
  fst (Presence.loop 3 w) = Ret Presence.Running /\
  pid_file (snd (Presence.loop 3 w)) = Holds 4242.
Proof.
  intros w.
  assert (calm (pid_file w) w) as Hw.
  { repeat split; try (intros n e H); try (intros e H);
      try discriminate H.
    injection H as <-. reflexivity. }
  destruct (loop_survives_exceptions 3 w Hw)
    as ((w1 & -> & _) & (w' & -> & Hpid & _)).
  split; [reflexivity | ]. split; [reflexivity | exact Hpid].
Defined.

Section Startup.

Lemma write_pid_run (w : world) :
  mkdir_fault (sys w) = None -> pid_write_fault (sys w) = None ->
  Presence.write_pid w = (Ret tt, set_pid_file (Holds (getpid (sys w))) w).
Proof.
  intros Hm Hp. unfold Presence.write_pid, mbind, M_bind, check, ask, modify.
  rewrite Hm, Hp. reflexivity.
Qed.

(** The daemon up to its loop: a log line, the PID file, the exit hook, the
    signal handlers and the three variables. *)
Lemma run_daemon_startup (fuel : nat) (w : world) :
  mkdir_fault (sys w) = None -> log_fault (sys w) = None ->
  pid_write_fault (sys w) = None ->
  Presence.run_daemon fuel w
  = (r ← Presence.loop fuel;
     match r with
     | Presence.Running => mret Presence.Running
     | Presence.Finished => Presence.cleanup;; mret Presence.Finished
     end)
      (set_vars (Locals false false ∅)
         (set_proc (Process true true (pending (proc w)))
            (set_pid_file (Holds (getpid (sys w)))
               (set_trace (trace w ++ [Logged DaemonStarting]) w)))).
Proof.
  intros Hm Hl Hp. unfold Presence.run_daemon.
  rewrite (bind_run _ _ _ _ _ (log_run _ w Hm Hl)).
  erewrite bind_run by (apply write_pid_run; assumption).
  do 3 (erewrite bind_run by reflexivity).
  reflexivity.
Qed.

End Startup.

(** X17: the daemon holds the singleton guard for as long as it runs.  On
    a data directory that takes the log lines and the PID file, with no
    termination request on its way and a presence service and state file
    that raise nothing but [Exception]s, the daemon is still in its loop
    after any number of iterations and the PID file names its process. *)
Theorem daemon_holds_pid_file (fuel : nat) (w : world) :
  calm (pid_file w) w -> pid_write_fault (sys w) = None ->
  exists w',
    Presence.run_daemon fuel w = (Ret Presence.Running, w') /\
    pid_file w' = Holds (getpid (sys w)) /\
    fst (run_process (Presence.run_daemon fuel) w) = None.
Proof.
  intros Hw Hp. pose proof Hw as (Hpend & Hm & Hl & Hs & Hr & Hfile & _).
  set (w0 := set_vars (Locals false false ∅)
               (set_proc (Process true true (pending (proc w)))
                  (set_pid_file (Holds (getpid (sys w)))
                     (set_trace (trace w ++ [Logged DaemonStarting]) w)))).
  assert (calm (Holds (getpid (sys w))) w0) as H0.
  { unfold calm, w0. simpl. repeat (split; [assumption | ]). reflexivity. }
  destruct (ensures_returns _ Presence.Running (Presence.loop fuel) w0
              (calm_loop _ fuel) H0) as (w' & Hrun & Hw').
  assert (Presence.run_daemon fuel w = (Ret Presence.Running, w')) as Hd.
  { rewrite run_daemon_startup by assumption. fold w0.
    rewrite (bind_run _ _ _ _ _ Hrun). reflexivity. }
  exists w'. split; [exact Hd | ]. split.
  - destruct Hw' as (_ & _ & _ & _ & _ & _ & Hpid). exact Hpid.
  - unfold run_process. rewrite Hd. reflexivity.
Qed.

(** A daemon started on a healthy machine over the session of [refresh],
    with Discord not running: every attempt to connect fails. *)
Lemma daemon_holds_pid_file_witness :
  let w := set_state_file (Holds (session "Edit" 1700000010))
             (fresh (machine None None (fun _ => Some ProcessLookupError)
                       (fun _ => Some RuntimeError))) in
  exists w',
    Presence.run_daemon 4 w = (Ret Presence.Running, w') /\
    pid_file w' = Holds 4242 /\
    fst (run_process (Presence.run_daemon 4) w) = None.
Proof.
  intros w. apply (daemon_holds_pid_file 4 w); [ | reflexivity].
  repeat split; try (intros n e H); try (intros e H); try discriminate H.
  injection H as <-. reflexivity.
Defined.

(** ** The PID file at the daemon's exit *)

Section ExitHook.


Lemma tool_display_pure (tool : json) : pure (Presence.tool_display tool).
Proof.
  intros w. unfold Presence.tool_display. destruct (Presence.label tool); reflexivity.
Qed.

Lemma log_exit_hook (m : log_msg) : preserves exit_hook (Presence.log m).
Proof. unfold Presence.log, emit. frame. Qed.

Lemma remove_pid_exit_hook : preserves exit_hook Presence.remove_pid.
Proof. unfold Presence.remove_pid, Presence.unlink_pid. frame. Qed.

Lemma write_state_exit_hook (state : json) :
  preserves exit_hook (Presence.write_state state).
Proof. unfold Presence.write_state. frame. Qed.

Lemma issue_exit_hook (c : rpc_call) : preserves exit_hook (Presence.issue c).
Proof.
  intros w. unfold Presence.issue.
  destruct (rpc_fault (sys w) _); reflexivity.
Qed.

Lemma checkpoint_exit_hook : preserves exit_hook Presence.checkpoint.
Proof.
  intros w. unfold Presence.checkpoint. cbv zeta.
  destruct (handlers (proc w)); [ | reflexivity].
  destruct (pending (proc w)) as [[ | k] | ]; try reflexivity.
  assert (preserves exit_hook Presence.shutdown) as Hs.
  { unfold Presence.shutdown, sys_exit.
    apply bind_preserves; [apply log_exit_hook | intros _].
    apply bind_preserves; [apply remove_pid_exit_hook | intros _].
    apply raise_preserves. }
  rewrite Hs. reflexivity.
Qed.

Hint Resolve float_sub_pure tool_display_pure log_exit_hook
  remove_pid_exit_hook write_state_exit_hook issue_exit_hook
  checkpoint_exit_hook : frame.

Lemma method_exit_hook (c : rpc_call) : preserves exit_hook (Presence.method c).
Proof. unfold Presence.method. frame. Qed.

Hint Resolve method_exit_hook : frame.





End ExitHook.



(** ** Single iterations of the daemon *)

Section Iterations.

Lemma rpc_calls_rpc (t : list event) (c : rpc_call) :
  Presence.rpc_calls (t ++ [Rpc c]) = S (Presence.rpc_calls t).
Proof.
  unfold Presence.rpc_calls. rewrite List.filter_app, List.length_app.
  simpl. lia.
Qed.


Lemma issue_run (c : rpc_call) (w : world) :
  rpc_fault (sys w) (Presence.rpc_calls (trace w)) = None ->
  Presence.issue c w = (Ret tt, set_trace (trace w ++ [Rpc c]) w).
Proof. intros H. unfold Presence.issue. rewrite H. reflexivity. Qed.

Lemma issue_fails (c : rpc_call) (w : world) (e : exn) :
  rpc_fault (sys w) (Presence.rpc_calls (trace w)) = Some e ->
  Presence.issue c w = (Raise e, set_trace (trace w ++ [Rpc c]) w).
Proof. intros H. unfold Presence.issue. rewrite H. reflexivity. Qed.

Variable w : world.
Hypothesis Hp : pending (proc w) = None.
Hypothesis Hm : mkdir_fault (sys w) = None.
Hypothesis Hl : log_fault (sys w) = None.

Let n : nat := Presence.rpc_calls (trace w).

(** Connecting when the client cannot be made. *)
Lemma connect_fails_at_new (e : exn) :
  rpc_fault (sys w) n = Some e ->
  Presence.connect w
  = (Raise e, set_trace (trace w ++ [Rpc (RpcNew Presence.DISCORD_APP_ID)]) w).
Proof.
  intros Hf. unfold Presence.connect.
  rewrite (bind_run _ _ _ _ _ (checkpoint_quiet w Hp)).
  apply bind_raise, issue_fails, Hf.
Qed.

(** Connecting when the client is made and [connect()] raises. *)
Lemma connect_fails_at_connect (e : exn) :
  rpc_fault (sys w) n = None -> rpc_fault (sys w) (S n) = Some e ->
  Presence.connect w
  = (Raise e,
     set_vars (Locals true (connected (vars w)) (last_sent (vars w)))
       (set_trace
          (trace w ++ [Rpc (RpcNew Presence.DISCORD_APP_ID); Rpc RpcConnect]) w)).
Proof.
  intros H0 H1. unfold Presence.connect.
  rewrite (bind_run _ _ _ _ _ (checkpoint_quiet w Hp)).
  rewrite (bind_run _ _ _ _ _ (issue_run _ w H0)).
  erewrite bind_run by reflexivity.
  erewrite bind_run by (apply checkpoint_quiet; exact Hp).
  erewrite bind_raise; [reflexivity | ].
  rewrite method_run by reflexivity.
  rewrite issue_fails with (e := e).
  - cbn. rewrite <- app_assoc. reflexivity.
  - cbn [sys trace set_vars set_trace]. rewrite rpc_calls_rpc. exact H1.
Qed.


(** An iteration that fails to connect logs the failure and sleeps five
    seconds. *)
Lemma tick_connect_fails (e : exn) (w1 : world) :
  connected (vars w) = false -> caught e ->
  Presence.connect w = (Raise e, w1) ->
  pending (proc w1) = None -> sys w1 = sys w ->
  Presence.tick w
  = (Ret Presence.Next,
     set_clock (clock w1 + 5)
       (set_trace (trace w1 ++ [Logged (FailedToConnect e)]) w1)).
Proof.
  intros Hc He Hconn Hp1 Hsys.
  unfold Presence.tick. apply try_except2_ret.
  erewrite bind_run by reflexivity. rewrite Hc. cbn [negb].
  erewrite bind_run; [reflexivity | ].
  erewrite bind_run; cycle 1.
  { unfold try_except, caught in *.
    rewrite (bind_raise _ _ _ _ _ Hconn), He.
    erewrite bind_run by (apply checkpoint_quiet; exact Hp1).
    erewrite bind_run by (apply log_run; rewrite Hsys; assumption).
    erewrite bind_run by (apply checkpoint_quiet; exact Hp1).
    erewrite bind_run by reflexivity.
    reflexivity. }
  reflexivity.
Qed.


End Iterations.

(** X19: with no session to show, a connected daemon makes no call to the
    presence service: when [read_state] gives an empty record (no file, no
    JSON in it, or [{}]) and no termination request is on its way, the
    iteration sleeps one second and changes nothing else, so a presence
    published earlier is left as it is. *)
Theorem tick_without_session_sleeps (w : world) (state : json) :
  connected (vars w) = true -> pending (proc w) = None ->
  fst (Presence.read_state w) = Ret state -> truthy state = false ->
  Presence.tick w = (Ret Presence.Next, set_clock (clock w + 1) w).
Proof.
  intros Hc Hp Hr Hs.
  unfold Presence.tick. apply try_except2_ret.
  erewrite bind_run by reflexivity. rewrite Hc. cbn [negb].
  erewrite bind_run; [reflexivity | ].
  unfold Presence.poll.
  rewrite (bind_run _ _ _ _ _ (checkpoint_quiet w Hp)).
  rewrite (bind_run _ _ _ _ _ (run_of_pure _ _ _ read_state_pure Hr)).
  rewrite Hs. cbn [negb].
  rewrite (bind_run _ _ _ _ _ (checkpoint_quiet w Hp)).
  reflexivity.
Qed.

(** A connected daemon on a fresh data directory, where there is no state
    file yet. *)
Lemma tick_without_session_sleeps_witness :
  Presence.tick (connected_daemon Absent 1700000000)
  = (Ret Presence.Next,
     set_clock 1700000001 (connected_daemon Absent 1700000000)).
Proof.
  rewrite (tick_without_session_sleeps _ empty_dict); reflexivity.
Defined.

(** X20: an iteration that cannot connect does nothing but wait.  When the
    daemon is not connected and making the client or connecting it raises
    an [Exception], the iteration logs the failure, sleeps five seconds and
    asks for the next iteration, still not connected; the state file is not
    read or written and nothing is published. *)
Theorem failed_connection_waits (w : world) (e : exn) :
  connected (vars w) = false -> pending (proc w) = None ->
  mkdir_fault (sys w) = None -> log_fault (sys w) = None ->
  is_Exception e = true ->
  let n := Presence.rpc_calls (trace w) in
  (rpc_fault (sys w) n = Some e ->
   Presence.tick w
   = (Ret Presence.Next,
      set_clock (clock w + 5)
        (set_trace
           (trace w ++ [Rpc (RpcNew Presence.DISCORD_APP_ID);
                        Logged (FailedToConnect e)]) w))) /\
  (rpc_fault (sys w) n = None -> rpc_fault (sys w) (S n) = Some e ->
   Presence.tick w
   = (Ret Presence.Next,
      set_clock (clock w + 5)
        (set_vars (Locals true false (last_sent (vars w)))
           (set_trace
              (trace w ++ [Rpc (RpcNew Presence.DISCORD_APP_ID);
                           Rpc RpcConnect; Logged (FailedToConnect e)]) w)))).
Proof.
  intros Hc Hp Hm Hl He n. split.
  - intros Hf.
    rewrite (tick_connect_fails w Hm Hl e _ Hc He
               (connect_fails_at_new w Hp e Hf)) by (try reflexivity; exact Hp).
    cbn. rewrite <- app_assoc. reflexivity.
  - intros H0 H1.
    rewrite (tick_connect_fails w Hm Hl e _ Hc He
               (connect_fails_at_connect w Hp e H0 H1))
      by (try reflexivity; exact Hp).
    cbn. rewrite Hc, <- app_assoc. reflexivity.
Qed.

(** A daemon started while Discord is not running. *)
Lemma failed_connection_waits_witness :
  let w := set_state_file (Holds (session "Edit" 1700000010))
             (fresh (machine None None (fun _ => Some ProcessLookupError)
                       (fun _ => Some RuntimeError))) in
  Presence.tick w
  = (Ret Presence.Next,
     set_clock 1700000005
       (set_trace [Rpc (RpcNew Presence.DISCORD_APP_ID);
                   Logged (FailedToConnect RuntimeError)] w)).
Proof.
  intros w.
  destruct (failed_connection_waits w RuntimeError
              eq_refl eq_refl eq_refl eq_refl eq_refl) as [H _].
  rewrite H; reflexivity.
Defined.





(** ** The statusline's output *)

(** X23: input the statusline cannot parse gives an empty status line and
    nothing else.  When standard input is empty, is not JSON, or its
    decoding raises a [ValueError], [main] prints one empty line and
    returns; the state file and the log are not touched. *)
Theorem statusline_bad_input_prints_empty (w : world) :
  stdin w = StdinBlank \/ stdin w = StdinGarbled \/
  (exists e, stdin w = StdinFails e /\ is_ValueError e = true) ->
  Statusline.main w = (Ret tt, set_trace (trace w ++ [Printed ""]) w).
Proof.
  intros Hin. unfold Statusline.main.
  erewrite (bind_run _ _ w _ None); [reflexivity | ].
  unfold try_except, Statusline.json_load_stdin, stdin_read, mbind, M_bind.
  destruct Hin as [-> | [-> | (e & -> & He)]]; try reflexivity.
  simpl. rewrite He, orb_true_r. reflexivity.
Qed.

(** The statusline is run with nothing on its input while a session is
    under way. *)
Lemma statusline_bad_input_prints_empty_witness :
  Statusline.main (set_stdin StdinBlank refresh)
  = (Ret tt, set_trace [Printed ""] (set_stdin StdinBlank refresh)).
Proof.
  apply (statusline_bad_input_prints_empty (set_stdin StdinBlank refresh)).
  left. reflexivity.
Defined.

#[local] Hint Resolve py_add_pure py_mul_pure py_div_pure need_num_pure
  json_load_stdin_pure statusline_read_state_pure : frame.

Section StatuslineOutput.

Lemma prints_logged (t : list event) (m : log_msg) :
  prints (t ++ [Logged m]) = prints t.
Proof. unfold prints. rewrite List.filter_app, List.length_app. simpl. lia. Qed.

Lemma prints_printed (t : list event) (line : string) :
  prints (t ++ [Printed line]) = S (prints t).
Proof. unfold prints. rewrite List.filter_app, List.length_app. simpl. lia. Qed.

Lemma statusline_log_prints (m : log_msg) :
  preserves (fun w => prints (trace w)) (Statusline.log m).
Proof.
  unfold Statusline.log.
  apply try_except_preserves; [ | intros e; apply ret_preserves].
  apply bind_preserves; [frame | intros _].
  apply bind_preserves; [frame | intros _].
  intros w. apply prints_logged.
Qed.

Lemma statusline_write_state_prints (state : json) :
  preserves (fun w => prints (trace w)) (Statusline.write_state state).
Proof.
  unfold Statusline.write_state.
  apply try_except_preserves; [frame | intros e; apply statusline_log_prints].
Qed.

Lemma merge_prints (state model_display model_id tokens : json) :
  preserves (fun w => prints (trace w))
    (Statusline.merge state model_display model_id tokens).
Proof.
  pose proof statusline_write_state_prints as Hw.
  unfold Statusline.merge, time_time. frame.
Qed.

Lemma bind_unfold {A B : Type} (m : M A) (k : A -> M B) (w : world) :
  (m ≫= k) w
  = match m w with
    | (Ret a, w') => k a w'
    | (Raise e, w') => (Raise e, w')
    end.
Proof. reflexivity. Qed.

(** The line at the end of the handler is the one line it prints. *)
Lemma handle_prints (data : json) (w : world) :
  fst (Statusline.handle data w) = Ret tt ->
  prints (trace (snd (Statusline.handle data w))) = S (prints (trace w)).
Proof.
  assert (forall a b k, pure (x ← py_mul a 4; y ← py_mul b 12;
                              z ← py_add x y; py_div z k)) as Hcost.
  { intros a b k w0.
    do 3 (rewrite bind_pure by auto with frame;
          destruct (fst _); [ | reflexivity]).
    apply py_div_pure. }
  assert (forall a b, pure (t ← py_add a b; need_num t)) as Htotal.
  { intros a b w0. rewrite bind_pure by auto with frame.
    destruct (fst _); [apply need_num_pure | reflexivity]. }
  unfold Statusline.handle.
  repeat (rewrite bind_pure by (first [apply Hcost | auto with frame]);
          match goal with
          | |- context [match fst ?x with Ret _ => _ | Raise _ => _ end] =>
              destruct (fst x) as [? | ?]
          end; [ | intros H; discriminate H]; cbv zeta).
  rewrite bind_unfold.
  match goal with
  | |- context [(if truthy ?s then ?m else mret tt) w] =>
      assert (prints (trace (snd ((if truthy s then m else mret tt) w)))
              = prints (trace w)) as Hmerge
        by (destruct (truthy s); [apply merge_prints | reflexivity]);
      destruct ((if truthy s then m else mret tt) w) as [[u | e] w1];
        [ | intros H; discriminate H]
  end.
  cbn [snd] in Hmerge. rewrite <- Hmerge.
  rewrite bind_pure by apply Htotal.
  match goal with
  | |- context [match fst ?x with Ret _ => _ | Raise _ => _ end] =>
      destruct (fst x) as [total_tokens | ?]
  end; [ | intros H; discriminate H].
  erewrite bind_run by reflexivity.
  destruct (num_gt total_tokens (NInt 0)).
  - rewrite bind_pure by auto with frame.
    match goal with
    | |- context [match fst ?x with Ret _ => _ | Raise _ => _ end] =>
        destruct (fst x) as [? | ?]
    end; [ | intros H; discriminate H].
    intros _. apply prints_printed.
  - match goal with
    | |- context [truthy ?m] => destruct (truthy m)
    end; intros _; apply prints_printed.
Qed.

End StatuslineOutput.

(** X24: whenever the statusline's [main] returns, it has printed exactly
    one line, whatever its input, the state of the session and the fate of
    its write. *)
Theorem statusline_prints_one_line (w : world) :
  fst (Statusline.main w) = Ret tt ->
  prints (trace (snd (Statusline.main w))) = S (prints (trace w)).
Proof.
  unfold Statusline.main.
  rewrite bind_unfold. unfold try_except.
  rewrite bind_pure by apply json_load_stdin_pure.
  destruct (fst (Statusline.json_load_stdin w)) as [data | e].
  - cbv beta iota delta [mret M_ret]. apply handle_prints.
  - destruct (_ || _); [ | intros H; discriminate H].
    intros _. simpl. apply prints_printed.
Qed.

(** The refresh of [refresh], and the same on a state file that refuses
    the write. *)
Lemma statusline_prints_one_line_witness :
  prints (trace (snd (Statusline.main refresh))) = 1%nat /\
  prints (trace (snd (Statusline.main (set_stdin statusline_input read_only))))
  = 1%nat.
Proof.
  split.
  - apply (statusline_prints_one_line refresh). reflexivity.
  - apply (statusline_prints_one_line (set_stdin statusline_input read_only)).
    reflexivity.
Defined.

Section StatuslineSteps.

Lemma simple_cost_pure (a b : json) (k : Z) :
  pure (x ← py_mul a 4; y ← py_mul b 12; z ← py_add x y; py_div z k).
Proof.
  intros w0.
  do 3 (rewrite bind_pure by auto with frame;
        match goal with
        | |- context [match fst ?x with Ret _ => _ | Raise _ => _ end] =>
            destruct (fst x)
        end; [ | reflexivity]).
  apply py_div_pure.
Qed.

Lemma total_tokens_pure (a b : json) : pure (t ← py_add a b; need_num t).
Proof.
  intros w0. rewrite bind_pure by auto with frame.
  destruct (fst (py_add a b w0)); [apply need_num_pure | reflexivity].
Qed.

End StatuslineSteps.

(** X25: the statusline never starts a session.  When the state it reads
    is empty (no file, no JSON in it, or [{}]), [main] writes and logs
    nothing, whatever its input: all it does is print at most one line. *)
Theorem statusline_without_session_writes_nothing (w : world) (state : json) :
  fst (Statusline.read_state w) = Ret state -> truthy state = false ->
  exists lines,
    (length lines <= 1)%nat /\
    snd (Statusline.main w) = set_trace (trace w ++ map Printed lines) w.
Proof.
  intros Hr Hs.
  set (P := fun w' : world =>
              exists lines, (length lines <= 1)%nat /\
                            w' = set_trace (trace w ++ map Printed lines) w).
  assert (P w) as H0.
  { exists []. split; [simpl; lia | ]. simpl. rewrite app_nil_r.
    destruct w; reflexivity. }
  assert (forall line, P (snd (print line w))) as Hprint.
  { intros line. exists [line]. split; [simpl; lia | reflexivity]. }
  change (P (snd (Statusline.main w))).
  unfold Statusline.main. rewrite bind_unfold. unfold try_except.
  rewrite bind_pure by apply json_load_stdin_pure.
  destruct (fst (Statusline.json_load_stdin w)) as [data | e].
  2: { destruct (_ || _); [ | exact H0]. apply Hprint. }
  cbv beta iota delta [mret M_ret]. unfold Statusline.handle.
  do 9 (apply (bind_pure_ind P);
        [solve [auto with frame] | exact H0 | intros ? _]).
  cbv zeta.
  do 3 (apply (bind_pure_ind P);
        [solve [auto with frame] | exact H0 | intros ? _]).
  apply (bind_pure_ind P);
    [apply simple_cost_pure | exact H0 | intros simple_cost _].
  apply (bind_pure_ind P); [solve [auto with frame] | exact H0 | ].
  intros state' Hstate. rewrite Hr in Hstate. injection Hstate as <-.
  rewrite Hs. erewrite bind_run by reflexivity.
  apply (bind_pure_ind P);
    [apply total_tokens_pure | exact H0 | intros total_tokens _].
  apply (bind_pure_ind P); [solve [auto with frame] | exact H0 | intros p _].
  destruct (num_gt total_tokens (NInt 0)).
  - apply (bind_pure_ind P); [solve [auto with frame] | exact H0 | intros c _].
    apply Hprint.
  - match goal with
    | |- context [if truthy ?m then _ else _] => destruct (truthy m)
    end; apply Hprint.
Qed.

(** The statusline is refreshed on a fresh data directory, before any
    [start]. *)
Lemma statusline_without_session_writes_nothing_witness :
  exists lines,
    (length lines <= 1)%nat /\
    snd (Statusline.main (set_stdin statusline_input (fresh healthy)))
    = set_trace
        (trace (set_stdin statusline_input (fresh healthy)) ++ map Printed lines)
        (set_stdin statusline_input (fresh healthy)).
Proof.
  apply (statusline_without_session_writes_nothing
           (set_stdin statusline_input (fresh healthy)) empty_dict);
    reflexivity.
Defined.

Section StatuslineRun.


Variable w : world.
Variables m md cd cw cu d : gmap string json.
Variables i o : Z.
Variable c : num.

Hypothesis Hmodel : default empty_dict (m !! "model") = JDict md.
Hypothesis Hcost : default empty_dict (m !! "cost") = JDict cd.
Hypothesis Hctx : default empty_dict (m !! "context_window") = JDict cw.
Hypothesis Hin : default (JInt 0) (cw !! "total_input_tokens") = JInt i.
Hypothesis Hout : default (JInt 0) (cw !! "total_output_tokens") = JInt o.
Hypothesis Husage :
  (if truthy (default JNull (cw !! "current_usage"))
   then default JNull (cw !! "current_usage") else empty_dict) = JDict cu.
Hypothesis Hc : as_num (default (JFloat 0) (cd !! "total_cost_usd")) = Some c.
Hypothesis Hfile : state_file w = Holds (JDict d).
Hypothesis Hd : d <> ∅.
Hypothesis Hm : mkdir_fault (sys w) = None.
Hypothesis Hs : state_write_fault (sys w) = None.

Let name : json := default (JStr "") (md !! "display_name").
Let model_id : json := default (JStr "") (md !! "id").
Let tokens : json :=
  JDict (token_record i o
           (default (JInt 0) (cu !! "cache_read_input_tokens"))
           (default (JInt 0) (cu !! "cache_creation_input_tokens"))
           (default (JFloat 0) (cd !! "total_cost_usd"))).



End StatuslineRun.





(** ** After the loop, and after an idle timeout *)

Section Afterwards.

Lemma run_atexit_trace (w : world) : trace (run_atexit w) = trace w.
Proof.
  unfold run_atexit. destruct (atexit (proc w)); [ | reflexivity].
  unfold Presence.remove_pid, Presence.unlink_pid, try_except, mbind, M_bind,
    ask, check, modify, raise.
  destruct (pid_file w); simpl; try reflexivity;
    destruct (pid_unlink_fault (sys w)) as [x | ]; simpl; try reflexivity;
    destruct (is_OSError x); reflexivity.
Qed.



End Afterwards.

(** X28: the daemon never closes its connection.  With SIGINT handled by
    [shutdown], and libraries that do not raise [KeyboardInterrupt]
    themselves, nothing takes [run_daemon] out of its loop by [break]: it
    never returns, so the cleanup after the loop never runs, and from its
    start to the exit of its process, whatever happens and whenever a
    termination request arrives, it issues no [rpc.close()]. *)
Theorem daemon_never_closes_connection (fuel : nat) (w : world) :
  quiet_libraries w ->
  fst (Presence.run_daemon fuel w) <> Ret Presence.Finished /\
  closes (trace (snd (run_process (Presence.run_daemon fuel) w)))
  = closes (trace w).
Proof.
  intros Hw.
  destruct (run_daemon_never_closes fuel w Hw) as [Hc Hr].
  split; [exact Hr | ].
  unfold run_process.
  destruct (Presence.run_daemon fuel w) as [[[ | ] | e] w']; cbn [fst snd] in *;
    try (destruct e); cbn [snd]; rewrite ?run_atexit_trace; exact Hc.
Qed.

(** The daemon of [signalled 3], asked to terminate while it connects. *)
Lemma daemon_never_closes_connection_witness :
  fst (Presence.run_daemon 5 (signalled 3)) <> Ret Presence.Finished /\
  closes (trace (snd (run_process (Presence.run_daemon 5) (signalled 3)))) = 0%nat.
Proof.
  apply (daemon_never_closes_connection 5 (signalled 3)).
  repeat split; discriminate.
Defined.


